(** * convert_pdf.py: the PDF-to-PNG conversion endpoint

    A shallow embedding of [src/convert_pdf.py].  The module downloads a
    PDF, renders every page to a PNG with PyMuPDF, uploads the images to
    imgbb concurrently and answers with the hosted URLs.

    Everything the module reaches outside of itself (the process
    environment, the two HTTP services, the rendering engine, the order in
    which the event loop completes tasks) is an explicit argument; every
    call to it is recorded in a trace, so that statements such as
    "the renderer is never invoked" can be made. *)

From Stdlib Require Import ZArith Lia Ascii String DecimalString.
From Stdlib.Strings Require Import Byte.
From stdpp Require Import base option list strings gmap.

Local Open Scope Z_scope.
Local Set Warnings "-register-all".

(** ** Python values used by the module *)

Module Py.

(** The exception classes the [except] clauses of the module tell apart.
    All three are instances of [Exception]; signals deriving from
    [BaseException] only (task cancellation, interpreter exit) are not
    values of this type. *)
Inductive exn : Type :=
| HTTPException (status_code : Z) (detail : string)
| ClientError (message : string)
| Exception (message : string).

Definition is_HTTPException (e : exn) : bool :=
  match e with HTTPException _ _ => true | _ => false end.

Definition is_ClientError (e : exn) : bool :=
  match e with ClientError _ => true | _ => false end.

(** [str(e)], used on exceptions that are not [HTTPException]s. *)
Definition str_of_exn (e : exn) : string :=
  match e with
  | HTTPException _ detail => detail
  | ClientError message | Exception message => message
  end.

(** What evaluating an expression gives: a value or a raised exception. *)
Inductive outcome (A : Type) : Type :=
| Return (a : A)
| Raise (e : exn).
Arguments Return {A} a.
Arguments Raise {A} e.

(** The built-in errors of the interpreter that the module can provoke;
    both are instances of [Exception] and of no class an [except] clause
    of the module names. *)
Definition TypeError : exn := Exception "TypeError".
Definition KeyError (key : string) : exn := Exception ("KeyError: " +:+ key).

Definition bytes : Type := list byte.

(** [len(b)] *)
Definition len (b : bytes) : Z := Z.of_nat (length b).

(** [str(n)] of an integer, as the f-strings print it. *)
Definition str_of_int (n : Z) : string := NilZero.string_of_int (Z.to_int n).

(** [s.lower()].  Strings are sequences of UTF-8 code units; only the
    letters A-Z are mapped.  The code points outside ASCII whose lower
    case is an ASCII letter are U+0130 (to i) and U+212A (to k), so the
    test for the letters p, d and f below is not affected. *)
Definition lower_ascii (c : ascii) : ascii :=
  let n := N_of_ascii c in
  if ((65 <=? n) && (n <=? 90))%N then ascii_of_N (n + 32) else c.

Fixpoint lower (s : string) : string :=
  match s with
  | EmptyString => EmptyString
  | String c s' => String (lower_ascii c) (lower s')
  end.

(** [sub in s] on two strings. *)
Fixpoint contains (sub s : string) : bool :=
  String.prefix sub s ||
  match s with
  | EmptyString => false
  | String _ s' => contains sub s'
  end.

(** [base64.b64encode(b).decode('utf-8')] *)
Definition b64_alphabet : string :=
  "ABCDEFGHIJKLMNOPQRSTUVWXYZabcdefghijklmnopqrstuvwxyz0123456789+/".

Definition b64_digit (n : N) : ascii :=
  match String.get (N.to_nat (N.land n 63)) b64_alphabet with
  | Some c => c
  | None => "="%char
  end.

Fixpoint b64encode (b : bytes) : string :=
  match b with
  | [] => ""
  | [x] =>
      let n := N.shiftl (Byte.to_N x) 16 in
      String (b64_digit (N.shiftr n 18))
        (String (b64_digit (N.shiftr n 12)) "==")
  | [x; y] =>
      let n := N.lor (N.shiftl (Byte.to_N x) 16) (N.shiftl (Byte.to_N y) 8) in
      String (b64_digit (N.shiftr n 18))
        (String (b64_digit (N.shiftr n 12))
           (String (b64_digit (N.shiftr n 6)) "="))
  | x :: y :: z :: rest =>
      let n := N.lor (N.lor (N.shiftl (Byte.to_N x) 16)
                            (N.shiftl (Byte.to_N y) 8)) (Byte.to_N z) in
      String (b64_digit (N.shiftr n 18))
        (String (b64_digit (N.shiftr n 12))
           (String (b64_digit (N.shiftr n 6))
              (String (b64_digit n) (b64encode rest))))
  end.

End Py.
Export Py.

(** ** Parsed JSON, as [response.json()] returns it *)

Module Json.

(** A JSON document after parsing: [dict], [list], [str], number, [bool]
    or [None].  Numbers keep their literal; nothing below looks inside. *)
Inductive json : Type :=
| JNull
| JBool (b : bool)
| JNumber (literal : string)
| JString (s : string)
| JArray (items : list json)
| JObject (fields : gmap string json).

Definition is_JString (key : string) (j : json) : bool :=
  match j with
  | JString s => String.eqb key s
  | _ => false
  end.

(** [key in container] for a string [key]: key membership on a [dict],
    element membership on a [list], substring on a [str]; the other
    values are not iterable and the operator raises [TypeError]. *)
Definition py_in (key : string) (container : json) : outcome bool :=
  match container with
  | JObject fields => Return (bool_decide (is_Some (fields !! key)))
  | JArray items => Return (existsb (is_JString key) items)
  | JString s => Return (contains key s)
  | JNull | JBool _ | JNumber _ => Raise TypeError
  end.

(** [container[key]] for a string [key]: lookup on a [dict] ([KeyError]
    when the key is absent); [TypeError] on every other value. *)
Definition getitem (container : json) (key : string) : outcome json :=
  match container with
  | JObject fields =>
      match fields !! key with
      | Some v => Return v
      | None => Raise (KeyError key)
      end
  | JArray _ | JString _ | JNull | JBool _ | JNumber _ => Raise TypeError
  end.

End Json.
Export Json.

(** ** Effects: a trace of external calls and an outcome *)

Module Effects.

(** The calls the module makes to the outside, in the order made. *)
Inductive event : Type :=
| EvGet (url : string)
| EvRead
| EvFitzOpen (stream : bytes)
| EvGetPixmap (page_num : nat)
| EvPost (url key image : string)
| EvJson.

Definition M (A : Type) : Type := list event * outcome A.

Definition ret {A} (a : A) : M A := ([], Return a).

Definition raise {A} (e : exn) : M A := ([], Raise e).

Definition lift {A} (o : outcome A) : M A := ([], o).

(** An external call: it is recorded, and the environment decides how it
    ends. *)
Definition call {A} (ev : event) (o : outcome A) : M A := ([ev], o).

Definition bind {A B} (m : M A) (k : A -> M B) : M B :=
  match m with
  | (t, Return a) => let (t', r) := k a in (t ++ t', r)
  | (t, Raise e) => (t, Raise e)
  end.

(** [try: body / except ... as e: handler e] *)
Definition try_except {A} (body : M A) (handler : exn -> M A) : M A :=
  match body with
  | (t, Raise e) => let (t', r) := handler e in (t ++ t', r)
  | (t, Return a) => (t, Return a)
  end.

Definition trace {A} (m : M A) : list event := fst m.
Definition result {A} (m : M A) : outcome A := snd m.

End Effects.
Export Effects.

Declare Scope py_scope.
Delimit Scope py_scope with py.
Notation "'do' x <- m ; k" := (bind m (fun x => k))
  (at level 10, x name, m at level 100, k at level 200) : py_scope.
Local Open Scope py_scope.

(** ** The collaborators of the module *)

Module Env.

(** [aiohttp.ClientResponse]: status, headers (a case-insensitive
    multi-dictionary, kept as the list of header lines), and the two ways
    the module consumes the body. *)
Record ClientResponse : Type := {
  status : Z;
  headers : list (string * string);
  read : outcome bytes;
  json_body : outcome json
}.

(** [aiohttp.ClientSession]: [get url] and [post url key image], each
    ending in a response or in an exception. *)
Record ClientSession : Type := {
  get : string -> outcome ClientResponse;
  post : string -> string -> string -> outcome ClientResponse
}.

(** A document opened by PyMuPDF: for each page, in document order, what
    [load_page], [get_pixmap] and [tobytes("png")] end in. *)
Definition Document : Type := list (outcome bytes).

(** What one request meets: the session [download_pdf] opens with its
    headers, the rendering engine, the session the upload task of each
    page opens, and the order in which the event loop sees the upload
    tasks finish (tasks it does not list finish last, in task order). *)
Record World : Type := {
  download_session : list (string * string) -> ClientSession;
  fitz_open : bytes -> outcome Document;
  upload_session : nat -> ClientSession;
  completion : list nat
}.

(** [headers.get(name, default)]: the first line whose name matches,
    whatever the case. *)
Fixpoint headers_get (hs : list (string * string)) (name default : string)
  : string :=
  match hs with
  | [] => default
  | (k, v) :: rest =>
      if String.eqb (lower k) (lower name) then v
      else headers_get rest name default
  end.

(** [os.environ] *)
Definition environ : Type := gmap string string.

End Env.
Export Env.

(** ** convert_pdf.py *)

Module ConvertPdf.

(** *** Module initialisation (lines 11-20 and the route decorator) *)

Record FastAPI : Type := { routes : list (string * string) }.

Record globals : Type := {
  app : FastAPI;
  IMGBB_API_KEY : option string
}.

(** [not x] for [x] the result of [os.environ.get]: [None] and the empty
    string are falsy. *)
Definition falsy (x : option string) : bool :=
  match x with
  | None => true
  | Some s => String.eqb s ""
  end.

(** Executing the module: the state of its globals when execution stops,
    and whether it stopped by an exception. *)
Definition load_module (env : environ) : globals * outcome unit :=
  let app0 := {| routes := [] |} in
  let key := env !! "IMGBB_API_KEY" in
  if falsy key then
    ({| app := app0; IMGBB_API_KEY := key |},
     Raise (Exception "Imgbb API key not found in environment variables."))
  else
    ({| app := {| routes := [("POST", "/api/convert-pdf")] |};
        IMGBB_API_KEY := key |},
     Return tt).

(** *** download_pdf *)

Definition MAX_PDF_BYTES : Z := 10 * 1024 * 1024.

Definition DOWNLOAD_HEADERS : list (string * string) :=
  [("User-Agent", "Mozilla/5.0")].

(** The body of the [try] statement. *)
Definition download_pdf_try (w : World) (url : string) : M bytes :=
  let session := download_session w DOWNLOAD_HEADERS in
  do response <- call (EvGet url) (get session url) ;
  if negb (status response =? 200) then
    raise (HTTPException 400
             ("Failed to download PDF. Status code: "
                +:+ str_of_int (status response)))
  else
    let content_type := headers_get (headers response) "Content-Type" "" in
    if negb (contains "pdf" (lower content_type)) then
      raise (HTTPException 400
               ("URL does not point to a PDF file. Content-Type: "
                  +:+ content_type))
    else
      do pdf_bytes <- call EvRead (read response) ;
      if MAX_PDF_BYTES <? len pdf_bytes then
        raise (HTTPException 400 "PDF file is too large.")
      else ret pdf_bytes.

(** The two [except] clauses, tried in order. *)
Definition download_pdf_except (e : exn) : M bytes :=
  if is_ClientError e then
    raise (HTTPException 400 "Client error occurred while downloading PDF.")
  else
    raise (HTTPException 500 "Unexpected error occurred.").

Definition download_pdf (w : World) (url : string) : M bytes :=
  try_except (download_pdf_try w url) download_pdf_except.

(** *** convert_pdf_to_images *)

(** [for page_num in range(len(doc))], from [page_num] on, with the
    images appended so far. *)
Fixpoint render_pages (pages : Document) (page_num : nat)
    (images : list bytes) : M (list bytes) :=
  match pages with
  | [] => ret images
  | page :: rest =>
      do image_bytes <- call (EvGetPixmap page_num) page ;
      render_pages rest (S page_num) (images ++ [image_bytes])
  end.

Definition convert_pdf_to_images (w : World) (pdf_bytes : bytes)
  : M (list bytes) :=
  try_except
    (do doc <- call (EvFitzOpen pdf_bytes) (fitz_open w pdf_bytes) ;
     render_pages doc 0 [])
    (fun _ => raise (HTTPException 500 "Error converting PDF to images.")).

(** *** upload_image_to_imgbb *)

Definition IMGBB_URL : string := "https://api.imgbb.com/1/upload".

(** ['data' in result and 'url' in result['data']] *)
Definition has_data_url (result : json) : M bool :=
  do has_data <- lift (py_in "data" result) ;
  if has_data then
    do data <- lift (getitem result "data") ;
    lift (py_in "url" data)
  else ret false.

Definition upload_image_to_imgbb_try (key : string)
    (session : ClientSession) (image_bytes : bytes) : M json :=
  let encoded_image := b64encode image_bytes in
  do response <- call (EvPost IMGBB_URL key encoded_image)
                   (post session IMGBB_URL key encoded_image) ;
  do result <- call EvJson (json_body response) ;
  do ok <- has_data_url result ;
  if ok then
    do data <- lift (getitem result "data") ;
    lift (getitem data "url")
  else
    raise (HTTPException 500 "Error uploading image.").

(** [key] is the global [IMGBB_API_KEY]; [session] is the session this
    call opens. *)
Definition upload_image_to_imgbb (key : string) (session : ClientSession)
    (image_bytes : bytes) : M json :=
  try_except (upload_image_to_imgbb_try key session image_bytes)
    (fun _ => raise (HTTPException 500 "Error uploading images.")).

(** *** asyncio.gather *)

(** The exception of the first task, in the order [order], that ended in
    one. *)
Fixpoint first_raised {A} (order : list nat) (rs : list (outcome A))
  : option exn :=
  match order with
  | [] => None
  | i :: order' =>
      match rs !! i with
      | Some (Raise e) => Some e
      | _ => first_raised order' rs
      end
  end.

Fixpoint returned {A} (rs : list (outcome A)) : list A :=
  match rs with
  | [] => []
  | Return a :: rs' => a :: returned rs'
  | Raise _ :: rs' => returned rs'
  end.

(** [await asyncio.gather] on the unpacked task list: every task is
    started, in task order; the first exception seen by the loop is
    raised, and without one the results are returned in task order.
    Tasks still running when an exception is raised are not cancelled, so
    their calls stay in the trace. *)
Definition gather {A} (finished : list nat) (tasks : list (M A))
  : M (list A) :=
  let rs := map result tasks in
  (concat (map trace tasks),
   match first_raised (finished ++ seq 0 (length tasks)) rs with
   | Some e => Raise e
   | None => Return (returned rs)
   end).

(** *** convert_pdf_endpoint *)

Record PDFUrl : Type := { url : string }.

(** The response body [{"images": image_urls}]. *)
Record Images : Type := { images : list json }.

Definition is_empty {A} (l : list A) : bool :=
  match l with [] => true | _ => false end.

(** [[upload_image_to_imgbb(image_bytes) for image_bytes in
    image_bytes_list]]: one task per image, each opening a session of its
    own. *)
Definition upload_tasks (key : string) (w : World)
    (image_bytes_list : list bytes) : list (M json) :=
  imap (fun i image_bytes =>
          upload_image_to_imgbb key (upload_session w i) image_bytes)
       image_bytes_list.

Definition convert_pdf_endpoint_try (key : string) (w : World) (pdf : PDFUrl)
  : M Images :=
  do pdf_bytes <- download_pdf w (url pdf) ;
  do image_bytes_list <- convert_pdf_to_images w pdf_bytes ;
  do image_urls <- gather (completion w)
                          (upload_tasks key w image_bytes_list) ;
  if is_empty image_urls then
    raise (HTTPException 500 "No images were generated.")
  else ret {| images := image_urls |}.

(** [except HTTPException as http_exc: raise http_exc], then
    [except Exception as e: raise HTTPException(500, str(e))]. *)
Definition convert_pdf_endpoint_except (e : exn) : M Images :=
  if is_HTTPException e then raise e
  else raise (HTTPException 500 (str_of_exn e)).

Definition convert_pdf_endpoint (key : string) (w : World) (pdf : PDFUrl)
  : M Images :=
  try_except (convert_pdf_endpoint_try key w pdf) convert_pdf_endpoint_except.

End ConvertPdf.
Export ConvertPdf.

(** ** The upload contract in the words of the specification *)

Module UploadSpec.

(** The host's reply: the JSON document of the response to the POST,
    unless the POST or the decoding throws. *)
Definition host_reply (key : string) (session : ClientSession)
    (image_bytes : bytes) : outcome json :=
  match post session IMGBB_URL key (b64encode image_bytes) with
  | Return response => json_body response
  | Raise e => Raise e
  end.

(** The expected nested URL field: the value of ["url"] in the object
    under ["data"]. *)
Definition nested_url (reply : json) : option json :=
  match reply with
  | JObject fields =>
      match fields !! "data" with
      | Some (JObject data) => data !! "url"
      | _ => None
      end
  | _ => None
  end.

Definition UploadError : exn := HTTPException 500 "Error uploading images.".

(** Fail with [UploadError] when the call throws or the field is
    missing; otherwise return the URL under the data field. *)
Definition upload_spec (key : string) (session : ClientSession)
    (image_bytes : bytes) : outcome json :=
  match host_reply key session image_bytes with
  | Raise _ => Raise UploadError
  | Return reply =>
      match nested_url reply with
      | Some u => Return u
      | None => Raise UploadError
      end
  end.

End UploadSpec.
Export UploadSpec.

(** ** Concrete collaborators, for examples *)

Module Fixtures.

Definition no_session : ClientSession :=
  {| get := fun _ => Raise (ClientError "connection refused");
     post := fun _ _ _ => Raise (ClientError "connection refused") |}.

(** A remote server answering every GET with the given status line,
    headers and body. *)
Definition server (st : Z) (hs : list (string * string)) (body : bytes)
  : ClientSession :=
  {| get := fun _ => Return {| status := st; headers := hs;
                               read := Return body;
                               json_body := Raise (ClientError "not JSON") |};
     post := fun _ _ _ => Raise (ClientError "method not allowed") |}.

(** An image host answering every POST with the given JSON document. *)
Definition host (reply : json) : ClientSession :=
  {| get := fun _ => Raise (ClientError "method not allowed");
     post := fun _ _ _ => Return {| status := 200; headers := [];
                                    read := Return [];
                                    json_body := Return reply |} |}.

Definition uploaded (u : string) : json :=
  JObject {[ "data" := JObject {[ "url" := JString u ]} ]}.

Definition rejected : json :=
  JObject {[ "error" := JString "Invalid API key" ]}.

Definition world (download : ClientSession) (doc : outcome Document)
    (uploads : nat -> ClientSession) (order : list nat) : World :=
  {| download_session := fun _ => download;
     fitz_open := fun _ => doc;
     upload_session := uploads;
     completion := order |}.

Definition pdf_headers : list (string * string) :=
  [("Server", "nginx"); ("content-type", "Application/PDF")].

Definition html_headers : list (string * string) :=
  [("Content-Type", "text/html")].

Definition small_pdf : bytes := ["%"; "P"; "D"; "F"]%byte.

(** A body of 10 MiB and one byte. *)
Definition big_pdf : bytes := replicate (Z.to_nat 10485761) "%"%byte.

Definition request : PDFUrl := {| url := "https://example.org/a.pdf" |}.

Definition png (n : byte) : bytes := [n].

Definition two_page_doc : Document := [Return (png "1"); Return (png "2")].

Definition url_a : string := "https://i.ibb.co/a/page.png".
Definition url_b : string := "https://i.ibb.co/b/page.png".

(** Status 404 from the remote server. *)
Definition not_found : World :=
  world (server 404 pdf_headers small_pdf) (Return []) (fun _ => no_session) [].

(** Status 200 and [Content-Type: text/html]. *)
Definition html_page : World :=
  world (server 200 html_headers small_pdf) (Return []) (fun _ => no_session) [].

(** Status 200 and no Content-Type header. *)
Definition no_content_type : World :=
  world (server 200 [("Server", "nginx")] small_pdf) (Return [])
        (fun _ => no_session) [].

(** A PDF body of more than 10 MiB. *)
Definition oversized : World :=
  world (server 200 pdf_headers big_pdf) (Return two_page_doc)
        (fun _ => host (uploaded url_a)) [].

(** Two pages, both uploads accepted, the second finishing first. *)
Definition two_pages : World :=
  world (server 200 pdf_headers small_pdf) (Return two_page_doc)
        (fun i => host (uploaded (if decide (i = 0%nat) then url_a else url_b)))
        [1%nat; 0%nat].

(** Two pages, the upload of the second rejected by the host. *)
Definition second_upload_rejected : World :=
  world (server 200 pdf_headers small_pdf) (Return two_page_doc)
        (fun i => host (if decide (i = 0%nat) then uploaded url_a else rejected))
        [0%nat; 1%nat].

(** A document without pages. *)
Definition no_pages : World :=
  world (server 200 pdf_headers small_pdf) (Return [])
        (fun _ => host (uploaded url_a)) [].

(** One page, upload accepted. *)
Definition one_page : World :=
  world (server 200 pdf_headers small_pdf) (Return [Return (png "1")])
        (fun _ => host (uploaded url_a)) [].

End Fixtures.
Export Fixtures.

(** ** Further collaborators and observations on traces *)

Module Scenarios.

Definition is_EvPost (ev : event) : bool :=
  match ev with
  | EvPost _ _ _ => true
  | _ => false
  end.

(** The POSTs of a trace, in the order made. *)
Definition posts (t : list event) : list event := List.filter is_EvPost t.

Definition is_EvGet (ev : event) : bool :=
  match ev with
  | EvGet _ => true
  | _ => false
  end.

(** The GETs of a trace, in the order made. *)
Definition gets (t : list event) : list event := List.filter is_EvGet t.

Definition is_Return {A} (o : outcome A) : bool :=
  match o with
  | Return _ => true
  | Raise _ => false
  end.


(** A remote server that cannot be reached. *)
Definition unreachable : World :=
  world no_session (Return []) (fun _ => no_session) [].

(** A server whose connection drops while the body is read. *)
Definition dropped : World :=
  world {| get := fun _ => Return {| status := 200; headers := pdf_headers;
                                     read := Raise (ClientError "payload");
                                     json_body := Raise (ClientError "not JSON") |};
           post := fun _ _ _ => Raise (ClientError "method not allowed") |}
        (Return []) (fun _ => no_session) [].

(** Three pages, the second of which the engine cannot render. *)
Definition broken_page_doc : Document :=
  [Return (png "1"); Raise (Exception "cannot render"); Return (png "3")].

Definition broken_page : World :=
  world (server 200 pdf_headers small_pdf) (Return broken_page_doc)
        (fun _ => host (uploaded url_a)) [].

(** Bytes the engine does not open. *)
Definition not_a_pdf : World :=
  world (server 200 pdf_headers small_pdf) (Raise (Exception "cannot open"))
        (fun _ => host (uploaded url_a)) [].

(** Two Content-Type lines, the first of which is not a PDF type. *)
Definition two_content_types : list (string * string) :=
  [("Server", "nginx"); ("CONTENT-TYPE", "text/html");
   ("Content-Type", "application/pdf")].

(** Two pages, the upload of the first rejected, the second finishing
    first. *)
Definition first_upload_rejected : World :=
  world (server 200 pdf_headers small_pdf) (Return two_page_doc)
        (fun i => host (if decide (i = 0%nat) then rejected else uploaded url_b))
        [1%nat; 0%nat].

End Scenarios.
Export Scenarios.

(** ** Reading base64 text back *)

Module Base64Inverse.

(** The characters base64 text is made of. *)
Definition b64_chars : list ascii :=
  list_ascii_of_string b64_alphabet ++ ["="%char].

Fixpoint index_of (c : ascii) (s : string) : N :=
  match s with
  | EmptyString => 0
  | String c' s' => if Ascii.eqb c c' then 0 else N.succ (index_of c s')
  end.

(** The six bits a character stands for; the padding stands for none. *)
Definition b64_value (c : ascii) : N :=
  if Ascii.eqb c "=" then 0 else index_of c b64_alphabet.

Definition b64_group (c0 c1 c2 c3 : ascii) : N :=
  N.lor (N.shiftl
    (N.lor (N.shiftl
      (N.lor (N.shiftl (b64_value c0) 6) (b64_value c1)) 6)
      (b64_value c2)) 6)
    (b64_value c3).

Definition byte_at (n shift : N) : byte :=
  match Byte.of_N (N.land (N.shiftr n shift) 255) with
  | Some b => b
  | None => "000"%byte
  end.

(** The bytes a base64 text stands for, four characters at a time. *)
Fixpoint b64decode (s : string) : bytes :=
  match s with
  | String c0 (String c1 (String c2 (String c3 rest))) =>
      let n := b64_group c0 c1 c2 c3 in
      if Ascii.eqb c2 "=" then [byte_at n 16]
      else if Ascii.eqb c3 "=" then [byte_at n 16; byte_at n 8]
      else byte_at n 16 :: byte_at n 8 :: byte_at n 0 :: b64decode rest
  | _ => []
  end.

End Base64Inverse.
Export Base64Inverse.

(** * Examples and theorems *)

Example lower_example : lower "Application/PDF; q=1" = "application/pdf; q=1".
Proof. reflexivity. Qed.

Example contains_example :
  contains "pdf" "application/pdf" = true /\ contains "pdf" "text/html" = false
  /\ contains "pdf" "" = false /\ contains "" "" = true.
Proof. repeat split. Qed.

Example str_of_int_example : str_of_int 404 = "404" /\ str_of_int (-5) = "-5".
Proof. split; reflexivity. Qed.

Example b64encode_example :
  b64encode ["M"; "a"; "n"]%byte = "TWFu" /\ b64encode ["M"; "a"]%byte = "TWE="
  /\ b64encode ["M"]%byte = "TQ==" /\ b64encode [] = "".
Proof. repeat split. Qed.

(** The scenario of the specification: 200, a PDF content type, two
    pages, two accepted uploads; the URLs come back in page order although
    the second upload finishes first. *)
Example two_pages_scenario :
  convert_pdf_endpoint "key" two_pages request
  = ([EvGet "https://example.org/a.pdf"; EvRead; EvFitzOpen small_pdf;
      EvGetPixmap 0; EvGetPixmap 1;
      EvPost IMGBB_URL "key" "MQ=="; EvJson;
      EvPost IMGBB_URL "key" "Mg=="; EvJson],
     Return {| images := [JString url_a; JString url_b] |}).
Proof. reflexivity. Qed.

(** The same single-page request, served twice, gives one URL each time:
    nothing is kept between calls. *)
Example one_page_twice :
  result (convert_pdf_endpoint "key" one_page request)
  = Return {| images := [JString url_a] |}
  /\ result (convert_pdf_endpoint "key" one_page request)
     = Return {| images := [JString url_a] |}.
Proof. split; reflexivity. Qed.

Example load_module_with_key :
  load_module {[ "IMGBB_API_KEY" := "0123abcd" ]}
  = ({| app := {| routes := [("POST", "/api/convert-pdf")] |};
        IMGBB_API_KEY := Some "0123abcd" |}, Return tt).
Proof. reflexivity. Qed.

(** An empty key is refused like an absent one. *)
Example load_module_empty_key :
  snd (load_module {[ "IMGBB_API_KEY" := "" ]})
  = Raise (Exception "Imgbb API key not found in environment variables.").
Proof. reflexivity. Qed.

(** A reply whose ["data"] is a string containing "url" passes the
    membership tests and fails at the subscript. *)
Example upload_data_is_string :
  result (upload_image_to_imgbb_try "key"
            (host (JObject {[ "data" := JString "see url" ]})) (png "1"))
  = Raise TypeError
  /\ result (upload_image_to_imgbb "key"
               (host (JObject {[ "data" := JString "see url" ]})) (png "1"))
     = Raise (HTTPException 500 "Error uploading images.").
Proof. split; reflexivity. Qed.

(** ** Equations of the effect monad *)

Lemma result_bind {A B} (m : M A) (k : A -> M B) :
  result (bind m k) =
  match result m with Return a => result (k a) | Raise e => Raise e end.
Proof. destruct m as [t [a|e]]; simpl; [destruct (k a)|]; reflexivity. Qed.

Lemma trace_bind {A B} (m : M A) (k : A -> M B) :
  trace (bind m k) =
  trace m ++ match result m with Return a => trace (k a) | Raise _ => [] end.
Proof.
  destruct m as [t [a|e]]; simpl; [destruct (k a)|]; simpl;
    rewrite ?app_nil_r; reflexivity.
Qed.

Lemma result_try_except {A} (m : M A) (h : exn -> M A) :
  result (try_except m h) =
  match result m with Return a => Return a | Raise e => result (h e) end.
Proof. destruct m as [t [a|e]]; simpl; [|destruct (h e)]; reflexivity. Qed.

Lemma trace_try_except {A} (m : M A) (h : exn -> M A) :
  trace (try_except m h) =
  trace m ++ match result m with Return _ => [] | Raise e => trace (h e) end.
Proof.
  destruct m as [t [a|e]]; simpl; [|destruct (h e)]; simpl;
    rewrite ?app_nil_r; reflexivity.
Qed.

Lemma result_call {A} ev (o : outcome A) : result (call ev o) = o.
Proof. reflexivity. Qed.

Lemma trace_call {A} ev (o : outcome A) : trace (call ev o) = [ev].
Proof. reflexivity. Qed.

Lemma result_lift {A} (o : outcome A) : result (lift o) = o.
Proof. reflexivity. Qed.

Lemma trace_lift {A} (o : outcome A) : trace (lift o) = [].
Proof. reflexivity. Qed.

Create Rewrite HintDb py.
#[local] Hint Rewrite @result_bind @trace_bind @result_try_except
  @trace_try_except @result_call @trace_call @result_lift @trace_lift : py.

Ltac py_step :=
  repeat (progress (cbn -[lookup contains existsb]; autorewrite with py)).

#[local] Arguments bind : simpl never.
#[local] Arguments try_except : simpl never.
#[local] Arguments call : simpl never.
#[local] Arguments lift : simpl never.
#[local] Arguments raise : simpl never.
#[local] Arguments ret : simpl never.

Lemma result_raise {A} e : result (@raise A e) = Raise e.
Proof. reflexivity. Qed.

Lemma trace_raise {A} e : trace (@raise A e) = [].
Proof. reflexivity. Qed.

Lemma result_ret {A} (a : A) : result (ret a) = Return a.
Proof. reflexivity. Qed.

Lemma trace_ret {A} (a : A) : trace (ret a) = [].
Proof. reflexivity. Qed.

#[local] Hint Rewrite @result_raise @trace_raise @result_ret @trace_ret : py.

(** ** download_pdf *)

(** Whatever is raised inside the [try] leaves [download_pdf] as one of
    the two exceptions of its [except] clauses. *)
Lemma download_pdf_raises w u e :
  result (download_pdf w u) = Raise e ->
  e = HTTPException 400 "Client error occurred while downloading PDF."
  \/ e = HTTPException 500 "Unexpected error occurred.".
Proof.
  unfold download_pdf. rewrite result_try_except.
  destruct (result (download_pdf_try w u)) as [b|e0]; [discriminate|].
  unfold download_pdf_except.
  destruct (is_ClientError e0); simpl; intros [= <-]; auto.
Qed.

(** An exception of class [HTTPException] raised inside the [try] is not a
    [ClientError], so the second clause replaces it. *)
Lemma download_pdf_except_http c d :
  result (download_pdf_except (HTTPException c d))
  = Raise (HTTPException 500 "Unexpected error occurred.").
Proof. reflexivity. Qed.

(** [download_pdf] returns exactly when the response has status 200, a
    content type naming pdf, and a body of at most 10 MiB. *)
Lemma download_pdf_returns w u b :
  result (download_pdf w u) = Return b <->
  exists response,
    get (download_session w DOWNLOAD_HEADERS) u = Return response
    /\ status response = 200
    /\ contains "pdf" (lower (headers_get (headers response) "Content-Type" "")) = true
    /\ read response = Return b
    /\ len b <= MAX_PDF_BYTES.
Proof.
  unfold download_pdf, download_pdf_try, download_pdf_except.
  rewrite result_try_except, result_bind, result_call.
  destruct (get _ u) as [r|e] eqn:Hget; simpl.
  - destruct (Z.eqb_spec (status r) 200) as [Hs|Hs]; simpl.
    + destruct (contains "pdf" _) eqn:Hc; simpl.
      * rewrite result_bind, result_call.
        destruct (read r) as [body|e] eqn:Hread; simpl.
        -- destruct (Z.ltb_spec MAX_PDF_BYTES (len body)) as [Hl|Hl]; simpl.
           ++ split; [discriminate|].
              intros (r' & [= <-] & _ & _ & Hr & Hle).
              rewrite Hread in Hr. injection Hr as <-. lia.
           ++ split.
              ** intros [= <-]. exists r. auto.
              ** intros (r' & [= <-] & _ & _ & Hr & _). congruence.
        -- split; [destruct (is_ClientError e); discriminate|].
           intros (r' & [= <-] & _ & _ & Hr & _). congruence.
      * split; [discriminate|].
        intros (r' & [= <-] & _ & Hc' & _). congruence.
    + split; [discriminate|].
      intros (r' & [= <-] & Hs' & _). contradiction.
  - split; [destruct (is_ClientError e); discriminate|].
    intros (r' & ? & _). discriminate.
Qed.

(** [download_pdf] never reaches the rendering engine. *)
Lemma download_pdf_trace w u :
  trace (download_pdf w u) = [EvGet u]
  \/ trace (download_pdf w u) = [EvGet u; EvRead].
Proof.
  unfold download_pdf, download_pdf_try, download_pdf_except.
  rewrite trace_try_except, trace_bind, result_bind, trace_call, result_call.
  destruct (get _ u) as [r|e]; simpl.
  - destruct (negb (status r =? 200)); simpl; [auto|].
    destruct (negb (contains "pdf" _)); simpl; [auto|].
    rewrite trace_bind, result_bind, trace_call, result_call.
    destruct (read r) as [body|e]; simpl.
    + destruct (MAX_PDF_BYTES <? len body); simpl; auto.
    + destruct (is_ClientError e); simpl; auto.
  - destruct (is_ClientError e); simpl; auto.
Qed.

(** ** convert_pdf_to_images *)

Lemma map_Return_inj {A} (l1 l2 : list A) :
  map Return l1 = map Return l2 -> l1 = l2.
Proof.
  revert l2. induction l1 as [|a l1 IH]; intros [|b l2]; simpl;
    try discriminate; [reflexivity|].
  intros [= -> H]. f_equal. auto.
Qed.

Lemma render_pages_returns pages n acc imgs :
  result (render_pages pages n acc) = Return imgs <->
  exists ps, pages = map Return ps /\ imgs = acc ++ ps.
Proof.
  revert n acc. induction pages as [|page rest IH]; intros n acc; simpl.
  - change (result (ret acc)) with (Return acc). split.
    + intros [= <-]. exists []. rewrite app_nil_r. auto.
    + intros (ps & Hps & ->). destruct ps; [|discriminate].
      rewrite app_nil_r. reflexivity.
  - rewrite result_bind, result_call. destruct page as [img|e].
    + rewrite IH. split.
      * intros (ps & -> & ->). exists (img :: ps).
        rewrite <- app_assoc. auto.
      * intros (ps & Hps & ->). destruct ps as [|p ps]; [discriminate|].
        injection Hps as <- ->. exists ps. rewrite <- app_assoc. auto.
    + split; [discriminate|].
      intros (ps & Hps & _). destruct ps; discriminate.
Qed.

Lemma render_pages_trace pages n acc ev :
  ev ∈ trace (render_pages pages n acc) -> exists k, ev = EvGetPixmap k.
Proof.
  revert n acc. induction pages as [|page rest IH]; intros n acc; simpl.
  - intros H. inversion H.
  - rewrite trace_bind, trace_call, result_call.
    intros [->%list_elem_of_singleton|H]%elem_of_app; [eauto|].
    destruct page; [eauto|inversion H].
Qed.

(** The renderer returns exactly when the document opens and every page
    renders; the images are the pages' renderings, in document order. *)
Lemma convert_pdf_to_images_returns w b imgs :
  result (convert_pdf_to_images w b) = Return imgs <->
  fitz_open w b = Return (map Return imgs).
Proof.
  unfold convert_pdf_to_images.
  rewrite result_try_except, result_bind, result_call.
  destruct (fitz_open w b) as [doc|e]; simpl.
  - destruct (result (render_pages doc 0 [])) as [r|e] eqn:Hr.
    + apply render_pages_returns in Hr as (ps & -> & ->). simpl.
      split; [intros [= ->]; reflexivity|].
      intros [= H]. apply map_Return_inj in H. congruence.
    + cbn beta; rewrite ?result_raise. split; [discriminate|]. intros [= ->].
      rewrite (proj2 (render_pages_returns (map Return imgs) 0 [] imgs)) in Hr
        by (exists imgs; auto).
      discriminate.
  - cbn beta; rewrite ?result_raise. split; discriminate.
Qed.

Lemma convert_pdf_to_images_raises w b e :
  result (convert_pdf_to_images w b) = Raise e ->
  e = HTTPException 500 "Error converting PDF to images.".
Proof.
  unfold convert_pdf_to_images. rewrite result_try_except.
  destruct (result _) as [r|e0]; [discriminate|].
  cbn beta; rewrite ?result_raise. congruence.
Qed.

(** The only stream the engine is opened on is the argument. *)
Lemma convert_pdf_to_images_trace w b ev :
  ev ∈ trace (convert_pdf_to_images w b) ->
  ev = EvFitzOpen b \/ exists k, ev = EvGetPixmap k.
Proof.
  unfold convert_pdf_to_images.
  rewrite trace_try_except, trace_bind, result_bind, trace_call, result_call.
  destruct (fitz_open w b) as [doc|e0]; simpl.
  - intros [->|H]%elem_of_cons; [auto|right].
    apply elem_of_app in H as [H|H]; [eapply render_pages_trace; eauto|].
    destruct (result (render_pages doc 0 [])); inversion H.
  - intros [->|H]%elem_of_cons; [auto|inversion H].
Qed.

(** ** upload_image_to_imgbb *)

(** Every exception leaving [upload_image_to_imgbb] is the one of its
    [except] clause: the exception raised in the [else] branch is caught
    by that clause as well. *)
Lemma upload_image_to_imgbb_raises key session image_bytes e :
  result (upload_image_to_imgbb key session image_bytes) = Raise e ->
  e = UploadError.
Proof.
  unfold upload_image_to_imgbb. rewrite result_try_except.
  destruct (result _) as [r|e0]; [discriminate|].
  cbn beta. rewrite result_raise. intros [= <-]. reflexivity.
Qed.

Lemma upload_image_to_imgbb_trace key session image_bytes ev :
  ev ∈ trace (upload_image_to_imgbb key session image_bytes) ->
  ev = EvPost IMGBB_URL key (b64encode image_bytes) \/ ev = EvJson.
Proof.
  unfold upload_image_to_imgbb, upload_image_to_imgbb_try, has_data_url.
  autorewrite with py.
  destruct (post session _ _ _) as [response|e0]; simpl;
    [|intros [->|H]%elem_of_cons; [auto|inversion H]].
  autorewrite with py.
  destruct (json_body response) as [reply|e0]; simpl;
    [|intros [->|[->|H]%elem_of_cons]%elem_of_cons; [auto|auto|inversion H]].
  autorewrite with py.
  intros [->|[->|H]%elem_of_cons]%elem_of_cons; [auto|auto|exfalso].
  revert H.
  destruct (py_in "data" reply) as [[|]|]; simpl; autorewrite with py; simpl.
  2,3: intros H; inversion H.
  destruct (getitem reply "data") as [data|]; simpl; autorewrite with py; simpl.
  2: intros H; inversion H.
  destruct (py_in "url" data) as [[|]|]; simpl; autorewrite with py; simpl.
  2,3: intros H; inversion H.
  destruct (getitem data "url"); simpl; intros H; inversion H.
Qed.

(** C8.  [upload_image_to_imgbb] ends as the specification says: it fails
    with the 500 [UploadError] exactly when the POST or the decoding of
    its response throws, or the reply has no ["url"] in an object under
    ["data"]; in every other case it returns the value found there. *)
Theorem upload_image_to_imgbb_contract key session image_bytes :
  result (upload_image_to_imgbb key session image_bytes)
  = upload_spec key session image_bytes.
Proof.
  unfold upload_image_to_imgbb, upload_image_to_imgbb_try, has_data_url,
    upload_spec, host_reply.
  autorewrite with py.
  destruct (post session _ _ _) as [response|e0]; simpl; [|reflexivity].
  autorewrite with py.
  destruct (json_body response) as [reply|e0]; simpl; [|reflexivity].
  autorewrite with py.
  destruct reply as [| |lit|s|items|fields]; py_step; try reflexivity.
  - destruct (contains "data" s); reflexivity.
  - destruct (existsb (is_JString "data") items); reflexivity.
  - destruct (fields !! "data") as [data|] eqn:Hdata; py_step;
      rewrite ?Hdata; py_step; [|reflexivity].
    destruct data as [| |lit|s|items|dfields]; py_step; try reflexivity.
    + destruct (contains "url" s); py_step; reflexivity.
    + destruct (existsb (is_JString "url") items); py_step; reflexivity.
    + destruct (dfields !! "url") as [u|] eqn:Hurl; py_step;
        rewrite ?Hurl; reflexivity.
Qed.

(** ** asyncio.gather *)

Lemma first_raised_Some {A} order (rs : list (outcome A)) e :
  first_raised order rs = Some e -> exists i, rs !! i = Some (Raise e).
Proof.
  induction order as [|i order IH]; simpl; [discriminate|].
  destruct (rs !! i) as [[a|e0]|] eqn:Hi; auto.
  intros [= <-]. eauto.
Qed.

Lemma first_raised_None {A} order (rs : list (outcome A)) :
  first_raised order rs = None <->
  forall i e, i ∈ order -> rs !! i <> Some (Raise e).
Proof.
  induction order as [|i order IH]; simpl.
  - split; [|reflexivity]. intros _ i e H. inversion H.
  - destruct (rs !! i) as [[a|e0]|] eqn:Hi.
    + rewrite IH. split.
      * intros H j e [->|Hj]%elem_of_cons; [congruence|auto].
      * intros H j e Hj. apply H. right. exact Hj.
    + split; [discriminate|]. intros H. exfalso.
      apply (H i e0); [left|exact Hi].
    + rewrite IH. split.
      * intros H j e [->|Hj]%elem_of_cons; [congruence|auto].
      * intros H j e Hj. apply H. right. exact Hj.
Qed.

Lemma returned_all {A} (rs : list (outcome A)) :
  (forall i e, rs !! i <> Some (Raise e)) -> rs = map Return (returned rs).
Proof.
  induction rs as [|[a|e] rs IH]; simpl; intros H.
  - reflexivity.
  - f_equal. apply IH. intros i e. apply (H (S i) e).
  - exfalso. apply (H 0%nat e). reflexivity.
Qed.

Lemma returned_map_Return {A} (vs : list A) : returned (map Return vs) = vs.
Proof. induction vs as [|v vs IH]; simpl; congruence. Qed.

(** Whatever the order of completion, [gather] returns exactly when every
    task returns, and then the results are in task order. *)
Lemma gather_returns {A} finished (tasks : list (M A)) vs :
  result (gather finished tasks) = Return vs <->
  map result tasks = map Return vs.
Proof.
  unfold gather, result at 1. simpl.
  destruct (first_raised _ _) as [e|] eqn:Hf.
  - split; [discriminate|]. intros H. exfalso.
    apply first_raised_Some in Hf as (i & Hi).
    rewrite H in Hi. clear -Hi. revert i Hi.
    induction vs as [|v vs IH]; intros [|i]; simpl; try discriminate. eauto.
  - assert (forall i e, map result tasks !! i <> Some (Raise e)) as Hall.
    { intros i e Hi. apply (proj1 (first_raised_None _ _) Hf i e); [|exact Hi].
      apply elem_of_app. right. apply elem_of_seq. split; [lia|].
      apply lookup_lt_Some in Hi. rewrite length_map in Hi. simpl. lia. }
    apply returned_all in Hall. split.
    + intros [= <-]. exact Hall.
    + intros H. rewrite H, returned_map_Return. reflexivity.
Qed.

(** Whatever the order of completion, the exception [gather] raises is the
    exception of one of its tasks. *)
Lemma gather_raises {A} finished (tasks : list (M A)) e :
  result (gather finished tasks) = Raise e ->
  exists i t, tasks !! i = Some t /\ result t = Raise e.
Proof.
  unfold gather, result at 1. simpl.
  destruct (first_raised _ _) as [e0|] eqn:Hf; [|discriminate].
  intros [= <-]. apply first_raised_Some in Hf as (i & Hi).
  change (map result tasks) with (result <$> tasks) in Hi.
  rewrite list_lookup_fmap in Hi.
  destruct (tasks !! i) as [t|] eqn:Ht; [|discriminate].
  injection Hi as Hi. eauto.
Qed.

Lemma gather_trace {A} finished (tasks : list (M A)) ev :
  ev ∈ trace (gather finished tasks) ->
  exists i t, tasks !! i = Some t /\ ev ∈ trace t.
Proof.
  unfold gather, trace at 1. simpl.
  induction tasks as [|t tasks IH]; simpl; [intros H; inversion H|].
  intros [H|H]%elem_of_app.
  - exists 0%nat, t. auto.
  - destruct (IH H) as (i & t' & Hi & Hev). exists (S i), t'. auto.
Qed.

(** ** convert_pdf_endpoint *)

Lemma upload_tasks_lookup key w pages i t :
  upload_tasks key w pages !! i = Some t <->
  exists image, pages !! i = Some image
    /\ t = upload_image_to_imgbb key (upload_session w i) image.
Proof.
  unfold upload_tasks. rewrite list_lookup_imap.
  destruct (pages !! i) as [image|]; simpl.
  - split; [intros [= <-]; eauto|]. intros (im & [= <-] & ->). reflexivity.
  - split; [discriminate|]. intros (im & ? & _). discriminate.
Qed.

(** The endpoint's second [except] clause leaves an [HTTPException]
    alone. *)
Lemma convert_pdf_endpoint_except_http c d :
  result (convert_pdf_endpoint_except (HTTPException c d))
  = Raise (HTTPException c d).
Proof. reflexivity. Qed.

(** When all tasks return, their results form a list. *)
Lemma all_return {A} (ts : list (M A)) :
  (forall i t, ts !! i = Some t -> exists v, result t = Return v) ->
  exists vs, map result ts = map Return vs.
Proof.
  induction ts as [|t ts IH]; intros H.
  - exists []. reflexivity.
  - destruct (H 0%nat t eq_refl) as (v & Hv).
    destruct IH as (vs & Hvs); [intros i t'; apply (H (S i) t')|].
    exists (v :: vs). simpl. congruence.
Qed.

(** C3.  A PDF of N >= 1 pages that downloads, renders and whose N uploads
    all succeed is answered with N URLs, the i-th being the one the upload
    of page i returned. *)
Theorem endpoint_one_url_per_page key w pdf pdf_bytes pages :
  result (download_pdf w (url pdf)) = Return pdf_bytes ->
  fitz_open w pdf_bytes = Return (map Return pages) ->
  (1 <= length pages)%nat ->
  (forall i image, pages !! i = Some image ->
     exists u, result (upload_image_to_imgbb key (upload_session w i) image)
               = Return u) ->
  exists urls,
    result (convert_pdf_endpoint key w pdf) = Return {| images := urls |}
    /\ length urls = length pages
    /\ forall i image, pages !! i = Some image ->
         exists u, urls !! i = Some u
           /\ result (upload_image_to_imgbb key (upload_session w i) image)
              = Return u.
Proof.
  intros Hd Hf Hn Hup.
  apply convert_pdf_to_images_returns in Hf.
  destruct (all_return (upload_tasks key w pages)) as (urls & Hurls).
  { intros i t (image & Hi & ->)%upload_tasks_lookup. eauto. }
  assert (length urls = length pages) as Hlen.
  { apply (f_equal length) in Hurls. rewrite !length_map in Hurls.
    unfold upload_tasks in Hurls. rewrite length_imap in Hurls. auto. }
  exists urls. split; [|split; [exact Hlen|]].
  - unfold convert_pdf_endpoint, convert_pdf_endpoint_try.
    rewrite result_try_except, result_bind, Hd, result_bind, Hf, result_bind.
    rewrite (proj2 (gather_returns _ _ urls) Hurls).
    destruct urls; [simpl in Hlen; lia|]. reflexivity.
  - intros i image Hi.
    assert (upload_tasks key w pages !! i
            = Some (upload_image_to_imgbb key (upload_session w i) image)) as Ht.
    { apply upload_tasks_lookup. eauto. }
    apply (f_equal (fun l => l !! i)) in Hurls.
    change (map result (upload_tasks key w pages))
      with (result <$> upload_tasks key w pages) in Hurls.
    change (map Return urls) with (Return <$> urls) in Hurls.
    rewrite !list_lookup_fmap, Ht in Hurls. simpl in Hurls.
    destruct (urls !! i) as [u|]; [|discriminate].
    exists u. split; [reflexivity|]. simpl in Hurls. congruence.
Qed.

(** C4.  A PDF that downloads and opens as a document of no pages is
    answered with the 500 "No images were generated.", not with a success
    carrying an empty list. *)
Theorem endpoint_zero_pages key w pdf pdf_bytes :
  result (download_pdf w (url pdf)) = Return pdf_bytes ->
  fitz_open w pdf_bytes = Return [] ->
  result (convert_pdf_endpoint key w pdf)
  = Raise (HTTPException 500 "No images were generated.").
Proof.
  intros Hd Hf.
  apply (convert_pdf_to_images_returns w pdf_bytes []) in Hf.
  unfold convert_pdf_endpoint, convert_pdf_endpoint_try.
  rewrite result_try_except, result_bind, Hd, result_bind, Hf, result_bind.
  rewrite (proj2 (gather_returns (completion w) (upload_tasks key w []) [])
             eq_refl).
  reflexivity.
Qed.

(** C5.  When the upload of one page fails, whatever the order in which
    the uploads complete, the endpoint raises the 500 of the uploader and
    returns no list. *)
Theorem endpoint_upload_failure key w pdf pdf_bytes pages i image e :
  result (download_pdf w (url pdf)) = Return pdf_bytes ->
  result (convert_pdf_to_images w pdf_bytes) = Return pages ->
  pages !! i = Some image ->
  result (upload_image_to_imgbb key (upload_session w i) image) = Raise e ->
  result (convert_pdf_endpoint key w pdf)
  = Raise (HTTPException 500 "Error uploading images.")
  /\ forall r, result (convert_pdf_endpoint key w pdf) <> Return r.
Proof.
  intros Hd Hc Hi He.
  assert (result (convert_pdf_endpoint key w pdf) = Raise UploadError) as H.
  { unfold convert_pdf_endpoint, convert_pdf_endpoint_try.
    rewrite result_try_except, result_bind, Hd, result_bind, Hc, result_bind.
    destruct (result (gather _ _)) as [urls|e'] eqn:Hg.
    - apply gather_returns in Hg.
      apply (f_equal (fun l => l !! i)) in Hg.
      change (map result (upload_tasks key w pages))
        with (result <$> upload_tasks key w pages) in Hg.
      change (map Return urls) with (Return <$> urls) in Hg.
      rewrite !list_lookup_fmap in Hg.
      rewrite (proj2 (upload_tasks_lookup key w pages i _)) in Hg by eauto.
      simpl in Hg. rewrite He in Hg.
      destruct (urls !! i); discriminate.
    - apply gather_raises in Hg as (j & t & Hj & Ht).
      apply upload_tasks_lookup in Hj as (im & _ & ->).
      apply upload_image_to_imgbb_raises in Ht as ->. reflexivity. }
  split; [exact H|]. intros r. rewrite H. discriminate.
Qed.

Lemma convert_pdf_endpoint_except_trace e :
  trace (convert_pdf_endpoint_except e) = [].
Proof.
  unfold convert_pdf_endpoint_except. destruct (is_HTTPException e); reflexivity.
Qed.

(** The rendering engine is opened on nothing but the bytes that
    [download_pdf] returned. *)
Lemma endpoint_fitz_open key w pdf stream :
  EvFitzOpen stream ∈ trace (convert_pdf_endpoint key w pdf) ->
  result (download_pdf w (url pdf)) = Return stream.
Proof.
  unfold convert_pdf_endpoint, convert_pdf_endpoint_try.
  rewrite trace_try_except. intros [H|H]%elem_of_app.
  - rewrite trace_bind in H. apply elem_of_app in H as [H|H].
    + destruct (download_pdf_trace w (url pdf)) as [Ht|Ht]; rewrite Ht in H;
        repeat (apply elem_of_cons in H as [H|H]; [discriminate|]);
        inversion H.
    + destruct (result (download_pdf w (url pdf))) as [b|e]; [|inversion H].
      rewrite trace_bind in H. apply elem_of_app in H as [H|H].
      * apply convert_pdf_to_images_trace in H as [[= ->]|[k Hk]];
          [reflexivity|discriminate].
      * exfalso.
        destruct (result (convert_pdf_to_images w b)) as [imgs|e];
          [|inversion H].
        rewrite trace_bind in H. apply elem_of_app in H as [H|H].
        -- apply gather_trace in H as (i & t & Hi & Hev).
           apply upload_tasks_lookup in Hi as (im & _ & ->).
           apply upload_image_to_imgbb_trace in Hev as [?|?]; discriminate.
        -- destruct (result (gather _ _)) as [urls|e]; [|inversion H].
           destruct (is_empty urls); inversion H.
  - exfalso. destruct (result _); [inversion H|].
    rewrite convert_pdf_endpoint_except_trace in H. inversion H.
Qed.

(** C6.  A body of more than 10 MiB makes [download_pdf] fail and the
    endpoint stop before the rendering engine is opened; in every run,
    whatever the engine is opened on has at most 10 MiB. *)
Theorem oversized_download_never_rendered key w pdf :
  (forall response body,
     get (download_session w DOWNLOAD_HEADERS) (url pdf) = Return response ->
     read response = Return body ->
     10 * 1024 * 1024 < len body ->
     (exists e, result (download_pdf w (url pdf)) = Raise e)
     /\ forall stream,
          EvFitzOpen stream ∉ trace (convert_pdf_endpoint key w pdf))
  /\ (forall stream,
        EvFitzOpen stream ∈ trace (convert_pdf_endpoint key w pdf) ->
        len stream <= 10 * 1024 * 1024).
Proof.
  split.
  - intros response body Hget Hread Hbig.
    assert (forall b, result (download_pdf w (url pdf)) <> Return b) as Hno.
    { intros b (r & Hr & _ & _ & Hb & Hle)%download_pdf_returns.
      rewrite Hget in Hr. injection Hr as <-.
      rewrite Hread in Hb. injection Hb as <-.
      unfold MAX_PDF_BYTES in Hle. lia. }
    split.
    + destruct (result (download_pdf w (url pdf))) as [b|e] eqn:Hd; [|eauto].
      destruct (Hno b). reflexivity.
    + intros stream Hin%endpoint_fitz_open. exact (Hno stream Hin).
  - intros stream (r & _ & _ & _ & _ & Hle)%endpoint_fitz_open%download_pdf_returns.
    exact Hle.
Qed.

(** ** Module initialisation *)

(** C9.  Without [IMGBB_API_KEY] in the environment the module raises
    while it is being executed, before the route of the endpoint is
    registered with the application. *)
Theorem load_module_without_key (env : environ) :
  env !! "IMGBB_API_KEY" = None ->
  load_module env
  = ({| app := {| routes := [] |}; IMGBB_API_KEY := None |},
     Raise (Exception "Imgbb API key not found in environment variables.")).
Proof. intros H. unfold load_module. rewrite H. reflexivity. Qed.

(** ** The Content-Type check *)

Lemma headers_get_absent hs name default :
  Forall (fun kv => lower kv.1 <> lower name) hs ->
  headers_get hs name default = default.
Proof.
  induction 1 as [|[k v] hs Hk _ IH]; simpl; [reflexivity|].
  destruct (String.eqb_spec (lower k) (lower name)) as [Heq|_]; [|exact IH].
  destruct (Hk Heq).
Qed.

(** C10.  A response without a Content-Type header has the empty string
    as its content type, and [download_pdf] fails on it without reading
    the body. *)
Theorem download_without_content_type w u response :
  get (download_session w DOWNLOAD_HEADERS) u = Return response ->
  Forall (fun kv => lower kv.1 <> "content-type") (headers response) ->
  headers_get (headers response) "Content-Type" "" = ""
  /\ (exists e, result (download_pdf w u) = Raise e)
  /\ (forall b, result (download_pdf w u) <> Return b)
  /\ (EvRead ∉ trace (download_pdf w u))
  /\ (status response <> 200
      \/ (result (download_pdf_try w u)
          = Raise (HTTPException 400
                     "URL does not point to a PDF file. Content-Type: "))).
Proof.
  intros Hget Hno.
  assert (headers_get (headers response) "Content-Type" "" = "") as Hct.
  { apply headers_get_absent. exact Hno. }
  assert (forall b, result (download_pdf w u) <> Return b) as Hfail.
  { intros b (r & Hr & _ & Hc & _)%download_pdf_returns.
    rewrite Hget in Hr. injection Hr as <-. rewrite Hct in Hc. discriminate. }
  split; [exact Hct|]. split; [|split; [exact Hfail|split]].
  - destruct (result (download_pdf w u)) as [b|e] eqn:Hd; [|eauto].
    destruct (Hfail b). reflexivity.
  - unfold download_pdf, download_pdf_try, download_pdf_except.
    rewrite trace_try_except, trace_bind, result_bind, trace_call, result_call.
    rewrite Hget, Hct. simpl.
    destruct (negb (status response =? 200)); simpl;
      intros [?|H]%elem_of_cons; try discriminate; inversion H.
  - destruct (Z.eqb_spec (status response) 200) as [Hs|Hs]; [right|auto].
    unfold download_pdf_try. rewrite result_bind, result_call, Hget.
    simpl. rewrite Hs, Hct. reflexivity.
Qed.

(** ** The three checks of download_pdf, and what becomes of them *)

(** Each of the three [HTTPException]s of status 400 raised in the [try]
    of [download_pdf] is caught by its own [except Exception] clause:
    what leaves the function is the generic 500. *)
Lemma download_pdf_rejection w u c d :
  result (download_pdf_try w u) = Raise (HTTPException c d) ->
  result (download_pdf w u)
  = Raise (HTTPException 500 "Unexpected error occurred.").
Proof.
  intros H. unfold download_pdf. rewrite result_try_except, H. reflexivity.
Qed.

Lemma download_pdf_try_non_200 w u response :
  get (download_session w DOWNLOAD_HEADERS) u = Return response ->
  status response <> 200 ->
  result (download_pdf_try w u)
  = Raise (HTTPException 400 ("Failed to download PDF. Status code: "
                                +:+ str_of_int (status response))).
Proof.
  intros Hget Hs. unfold download_pdf_try.
  rewrite result_bind, result_call, Hget.
  destruct (Z.eqb_spec (status response) 200); [contradiction|reflexivity].
Qed.

(** Hence no response with a status other than 200 is ever answered with
    a 400. *)
Lemma download_pdf_non_200 w u response :
  get (download_session w DOWNLOAD_HEADERS) u = Return response ->
  status response <> 200 ->
  result (download_pdf w u)
  = Raise (HTTPException 500 "Unexpected error occurred.").
Proof.
  intros Hget Hs. eapply download_pdf_rejection.
  apply download_pdf_try_non_200; eassumption.
Qed.

(** The endpoint re-raises what its stages raise: the first [except]
    clause of [convert_pdf_endpoint] does pass an [HTTPException]
    through. *)
Lemma endpoint_download_failure key w pdf e :
  result (download_pdf w (url pdf)) = Raise e ->
  result (convert_pdf_endpoint key w pdf) = Raise e.
Proof.
  intros H. unfold convert_pdf_endpoint, convert_pdf_endpoint_try.
  rewrite result_try_except, result_bind, H.
  apply download_pdf_raises in H as [->| ->]; reflexivity.
Qed.

(** C1.  A download answered with status 404: the [try] raises the 400
    "Failed to download PDF", but [download_pdf] leaves with the generic
    500 of its [except Exception] clause, and that is what the endpoint
    surfaces. *)
Theorem download_404_leaves_as_500 :
  result (download_pdf_try not_found (url request))
  = Raise (HTTPException 400 "Failed to download PDF. Status code: 404")
  /\ result (download_pdf not_found (url request))
     = Raise (HTTPException 500 "Unexpected error occurred.")
  /\ result (convert_pdf_endpoint "key" not_found request)
     = Raise (HTTPException 500 "Unexpected error occurred.").
Proof. repeat split. Qed.

(** C2.  Two failures that are classified where they are raised and reach
    the caller changed: the 400 of a 404 download arrives as the generic
    500, and the "Error uploading image." of a rejected upload arrives with
    the message of the uploader's [except] clause. *)
Theorem classified_errors_rewritten :
  result (download_pdf_try not_found (url request))
  = Raise (HTTPException 400 "Failed to download PDF. Status code: 404")
  /\ result (convert_pdf_endpoint "key" not_found request)
     = Raise (HTTPException 500 "Unexpected error occurred.")
  /\ result (upload_image_to_imgbb_try "key" (host rejected) (png "2"))
     = Raise (HTTPException 500 "Error uploading image.")
  /\ result (convert_pdf_endpoint "key" second_upload_rejected request)
     = Raise (HTTPException 500 "Error uploading images.").
Proof. repeat split. Qed.

(** C7.  A download answered with status 200 and
    [Content-Type: text/html]: no bytes are returned and the body is not
    read, but the exception leaving [download_pdf] is the generic 500, not
    the 400 raised by the content-type check. *)
Theorem download_html_leaves_as_500 :
  result (download_pdf_try html_page (url request))
  = Raise (HTTPException 400
             "URL does not point to a PDF file. Content-Type: text/html")
  /\ result (download_pdf html_page (url request))
     = Raise (HTTPException 500 "Unexpected error occurred.")
  /\ trace (download_pdf html_page (url request)) = [EvGet (url request)].
Proof. repeat split. Qed.

(** ** The theorems at concrete requests *)

Lemma endpoint_one_url_per_page_witness :
  exists urls,
    result (convert_pdf_endpoint "key" two_pages request)
    = Return {| images := urls |}
    /\ length urls = length [png "1"; png "2"]
    /\ forall i image, [png "1"; png "2"] !! i = Some image ->
         exists u, urls !! i = Some u
           /\ result (upload_image_to_imgbb "key" (upload_session two_pages i)
                        image) = Return u.
Proof.
  apply (endpoint_one_url_per_page "key" two_pages request small_pdf
           [png "1"; png "2"]).
  - reflexivity.
  - reflexivity.
  - simpl. lia.
  - intros [|[|i]] image H; simpl in H; inversion H; eexists; reflexivity.
Defined.

Lemma endpoint_zero_pages_witness :
  result (download_pdf no_pages (url request)) = Return small_pdf
  /\ fitz_open no_pages small_pdf = Return []
  /\ result (convert_pdf_endpoint "key" no_pages request)
     = Raise (HTTPException 500 "No images were generated.").
Proof.
  split; [reflexivity|]. split; [reflexivity|].
  apply (endpoint_zero_pages "key" no_pages request small_pdf); reflexivity.
Defined.

Lemma endpoint_upload_failure_witness :
  result (convert_pdf_endpoint "key" second_upload_rejected request)
  = Raise (HTTPException 500 "Error uploading images.")
  /\ forall r,
       result (convert_pdf_endpoint "key" second_upload_rejected request)
       <> Return r.
Proof.
  apply (endpoint_upload_failure "key" second_upload_rejected request small_pdf
           [png "1"; png "2"] 1 (png "2") UploadError); reflexivity.
Defined.

Lemma big_pdf_len : 10 * 1024 * 1024 < len big_pdf.
Proof. unfold len, big_pdf. rewrite length_replicate. lia. Defined.

Lemma oversized_download_never_rendered_witness :
  10 * 1024 * 1024 < len big_pdf
  /\ (exists e, result (download_pdf oversized (url request)) = Raise e)
  /\ forall stream,
       EvFitzOpen stream ∉ trace (convert_pdf_endpoint "key" oversized request).
Proof.
  split; [exact big_pdf_len|].
  apply (proj1 (oversized_download_never_rendered "key" oversized request)
           {| status := 200; headers := pdf_headers; read := Return big_pdf;
              json_body := Raise (ClientError "not JSON") |} big_pdf).
  - reflexivity.
  - reflexivity.
  - exact big_pdf_len.
Defined.

Lemma load_module_without_key_witness :
  load_module ∅
  = ({| app := {| routes := [] |}; IMGBB_API_KEY := None |},
     Raise (Exception "Imgbb API key not found in environment variables.")).
Proof. apply (load_module_without_key ∅). reflexivity. Defined.

Lemma download_without_content_type_witness :
  headers_get [("Server", "nginx")] "Content-Type" "" = ""
  /\ (exists e, result (download_pdf no_content_type (url request)) = Raise e)
  /\ (forall b, result (download_pdf no_content_type (url request)) <> Return b)
  /\ (EvRead ∉ trace (download_pdf no_content_type (url request)))
  /\ (200 <> 200
      \/ (result (download_pdf_try no_content_type (url request))
          = Raise (HTTPException 400
                     "URL does not point to a PDF file. Content-Type: "))).
Proof.
  apply (download_without_content_type no_content_type (url request)
           {| status := 200; headers := [("Server", "nginx")];
              read := Return small_pdf;
              json_body := Raise (ClientError "not JSON") |}).
  - reflexivity.
  - repeat constructor. simpl. discriminate.
Defined.

(** * Further properties of the module *)

Lemma M_eta {A} (m : M A) : m = (trace m, result m).
Proof. destruct m. reflexivity. Qed.

(** ** download_pdf *)

(** X1.  [download_pdf] returns the body, after exactly one GET and one read,
    exactly when the response has status 200, a content type naming pdf
    and a body of at most 10 MiB (a body of exactly 10 MiB is accepted). *)
Theorem download_pdf_accepts_iff w u b :
  download_pdf w u = ([EvGet u; EvRead], Return b) <->
  exists response,
    get (download_session w DOWNLOAD_HEADERS) u = Return response
    /\ status response = 200
    /\ contains "pdf" (lower (headers_get (headers response) "Content-Type" "")) = true
    /\ read response = Return b
    /\ len b <= 10 * 1024 * 1024.
Proof.
  split.
  - intros H. apply download_pdf_returns. rewrite H. reflexivity.
  - intros (r & Hget & Hs & Hc & Hread & Hle).
    unfold download_pdf, download_pdf_try, try_except, bind, call.
    rewrite Hget, Hs, Hc, Hread. simpl.
    destruct (Z.ltb_spec MAX_PDF_BYTES (len b)) as [Hl|Hl]; [|reflexivity].
    unfold MAX_PDF_BYTES in Hl. lia.
Qed.

(** X2.  [download_pdf] answers with a 400 exactly when the GET or the reading
    of the body raises an [aiohttp.ClientError]; the detail is then the
    fixed "Client error occurred while downloading PDF.". *)
Theorem download_pdf_400_iff w u d :
  result (download_pdf w u) = Raise (HTTPException 400 d) <->
  d = "Client error occurred while downloading PDF."
  /\ exists m,
       get (download_session w DOWNLOAD_HEADERS) u = Raise (ClientError m)
       \/ exists response,
            get (download_session w DOWNLOAD_HEADERS) u = Return response
            /\ status response = 200
            /\ contains "pdf"
                 (lower (headers_get (headers response) "Content-Type" "")) = true
            /\ read response = Raise (ClientError m).
Proof.
  unfold download_pdf, download_pdf_try, download_pdf_except.
  rewrite result_try_except, result_bind, result_call.
  destruct (get _ u) as [r|e] eqn:Hget; simpl.
  - destruct (Z.eqb_spec (status r) 200) as [Hs|Hs]; simpl.
    + destruct (contains "pdf" _) eqn:Hc; simpl.
      * rewrite result_bind, result_call.
        destruct (read r) as [body|e] eqn:Hread; simpl.
        -- split.
           ++ destruct (MAX_PDF_BYTES <? len body); simpl; discriminate.
           ++ intros (_ & m & [?|(r' & [= <-] & _ & _ & Hr)]); congruence.
        -- destruct e as [c d'|m|m]; simpl.
           ++ split; [discriminate|].
              intros (_ & m & [?|(r' & [= <-] & _ & _ & Hr)]); congruence.
           ++ split.
              ** intros [= <-]. split; [reflexivity|]. exists m. right.
                 exists r. auto.
              ** intros (-> & _). reflexivity.
           ++ split; [discriminate|].
              intros (_ & m' & [?|(r' & [= <-] & _ & _ & Hr)]); congruence.
      * split; [discriminate|].
        intros (_ & m & [?|(r' & [= <-] & _ & Hc' & _)]); congruence.
    + split; [discriminate|].
      intros (_ & m & [?|(r' & [= <-] & Hs' & _)]); congruence.
  - destruct e as [c d'|m|m]; simpl.
    + split; [discriminate|].
      intros (_ & m & [?|(r' & ? & _)]); congruence.
    + split.
      * intros [= <-]. split; [reflexivity|]. exists m. auto.
      * intros (-> & _). reflexivity.
    + split; [discriminate|].
      intros (_ & m' & [?|(r' & ? & _)]); congruence.
Qed.

(** X3.  The body is read exactly when the response passed the status and the
    content-type checks. *)
Theorem download_pdf_reads_body_iff w u :
  EvRead ∈ trace (download_pdf w u) <->
  exists response,
    get (download_session w DOWNLOAD_HEADERS) u = Return response
    /\ status response = 200
    /\ contains "pdf"
         (lower (headers_get (headers response) "Content-Type" "")) = true.
Proof.
  unfold download_pdf, download_pdf_try, download_pdf_except.
  rewrite trace_try_except, trace_bind, result_bind, trace_call, result_call.
  destruct (get _ u) as [r|e] eqn:Hget; simpl.
  - destruct (Z.eqb_spec (status r) 200) as [Hs|Hs]; simpl.
    + destruct (contains "pdf" _) eqn:Hc; simpl.
      * split; [intros _; exists r; auto|]. intros _.
        rewrite trace_bind, trace_call. simpl. right. left.
      * split.
        -- intros [?|H]%elem_of_cons; [discriminate|inversion H].
        -- intros (r' & [= <-] & _ & Hc'). congruence.
    + split.
      * intros [?|H]%elem_of_cons; [discriminate|inversion H].
      * intros (r' & [= <-] & Hs' & _). contradiction.
  - split.
    + intros [?|H]%elem_of_cons; [discriminate|].
      destruct (is_ClientError e); inversion H.
    + intros (r' & ? & _). discriminate.
Qed.

(** ** The content-type test *)

Lemma prefix_app sub s :
  String.prefix sub s = true <-> exists post, s = sub +:+ post.
Proof.
  revert s. induction sub as [|c sub IH]; intros [|c' s]; simpl.
  - split; eauto.
  - split; eauto.
  - split; [discriminate|intros (? & ?); discriminate].
  - destruct (Ascii.ascii_dec c c') as [<-|Hne].
    + rewrite IH. split.
      * intros (post & ->). eauto.
      * intros (post & [= ->]). eauto.
    + split; [discriminate|]. intros (post & [= ? _]). congruence.
Qed.

(** X4.  [sub in s] holds exactly when [s] is some text, then [sub], then some
    text: the content-type test accepts the header values in which "pdf"
    occurs somewhere once lower-cased, such as "Application/PDF;q=1" or
    "text/x-pdfoo", and no others. *)
Theorem contains_iff_occurs sub s :
  contains sub s = true <-> exists pre post, s = pre +:+ sub +:+ post.
Proof.
  induction s as [|c s IH]; cbn [contains].
  - rewrite orb_false_r, prefix_app. split.
    + intros (post & ->). exists "", post. reflexivity.
    + intros (pre & post & H). destruct pre; [eauto|discriminate].
  - rewrite orb_true_iff, prefix_app, IH. split.
    + intros [(post & ->)|(pre & post & ->)].
      * exists "", post. reflexivity.
      * exists (String c pre), post. reflexivity.
    + intros (pre & post & H). destruct pre as [|c' pre]; simpl in H.
      * left. eauto.
      * injection H as <- ->. right. eauto.
Qed.

(** X5.  [headers.get] answers with the value of the first line whose name
    matches, whatever the case of either name; later lines of the same
    name are not looked at. *)
Theorem headers_get_first_match before k v after name default :
  Forall (fun kv => lower kv.1 <> lower name) before ->
  lower k = lower name ->
  headers_get (before ++ (k, v) :: after) name default = v.
Proof.
  intros Hb Hk. induction Hb as [|[k' v'] before Hk' _ IH]; simpl.
  - rewrite Hk, String.eqb_refl. reflexivity.
  - destruct (String.eqb_spec (lower k') (lower name)) as [Heq|_]; [|exact IH].
    destruct (Hk' Heq).
Qed.

Lemma headers_get_first_match_witness :
  headers_get two_content_types "content-type" "" = "text/html".
Proof.
  apply (headers_get_first_match [("Server", "nginx")] "CONTENT-TYPE"
           "text/html" [("Content-Type", "application/pdf")] "content-type" "").
  - repeat constructor. simpl. discriminate.
  - reflexivity.
Defined.

(** ** convert_pdf_to_images *)

Lemma render_pages_all pages n acc :
  render_pages (map Return pages) n acc
  = (map EvGetPixmap (seq n (length pages)), Return (acc ++ pages)).
Proof.
  revert n acc. induction pages as [|p pages IH]; intros n acc; simpl.
  - rewrite app_nil_r. reflexivity.
  - unfold bind, call. rewrite IH, <- app_assoc. reflexivity.
Qed.

Lemma render_pages_stops pages e rest n acc :
  render_pages (map Return pages ++ Raise e :: rest) n acc
  = (map EvGetPixmap (seq n (S (length pages))), Raise e).
Proof.
  revert n acc. induction pages as [|p pages IH]; intros n acc; simpl.
  - reflexivity.
  - unfold bind, call. rewrite IH. reflexivity.
Qed.

(** Every document is either fully rendered or has a first page that does
    not render. *)
Lemma document_cases (doc : Document) :
  (exists pages, doc = map Return pages)
  \/ exists pages e rest, doc = map Return pages ++ Raise e :: rest.
Proof.
  induction doc as [|[p|e] doc IH].
  - left. exists []. reflexivity.
  - destruct IH as [(ps & ->)|(ps & e & rest & ->)].
    + left. exists (p :: ps). reflexivity.
    + right. exists (p :: ps), e, rest. reflexivity.
  - right. exists [], e, doc. reflexivity.
Qed.

(** X6.  A document that opens and whose pages all render gives one image per
    page, in page order, after the engine was opened once on the bytes and
    each page was rendered once, from page 0 upwards. *)
Theorem convert_pdf_to_images_renders_all w b imgs :
  convert_pdf_to_images w b
  = (EvFitzOpen b :: map EvGetPixmap (seq 0 (length imgs)), Return imgs)
  <-> fitz_open w b = Return (map Return imgs).
Proof.
  split.
  - intros H. apply convert_pdf_to_images_returns. rewrite H. reflexivity.
  - intros H. unfold convert_pdf_to_images, try_except, bind, call.
    rewrite H, render_pages_all. reflexivity.
Qed.

(** X7.  Rendering stops at the first page that fails: the pages after it are
    not rendered, the images already made are dropped, and the caller gets
    the 500 "Error converting PDF to images.". *)
Theorem convert_pdf_to_images_stops_at_failure w b pages e rest :
  fitz_open w b = Return (map Return pages ++ Raise e :: rest) ->
  convert_pdf_to_images w b
  = (EvFitzOpen b :: map EvGetPixmap (seq 0 (S (length pages))),
     Raise (HTTPException 500 "Error converting PDF to images.")).
Proof.
  intros H. unfold convert_pdf_to_images, try_except, bind, call, raise.
  rewrite H, render_pages_stops, app_nil_r. reflexivity.
Qed.

Lemma convert_pdf_to_images_stops_at_failure_witness :
  convert_pdf_to_images broken_page small_pdf
  = ([EvFitzOpen small_pdf; EvGetPixmap 0; EvGetPixmap 1],
     Raise (HTTPException 500 "Error converting PDF to images.")).
Proof.
  apply (convert_pdf_to_images_stops_at_failure broken_page small_pdf
           [png "1"] (Exception "cannot render") [Return (png "3")]).
  reflexivity.
Defined.

(** X8.  [convert_pdf_to_images] fails exactly when the engine does not open
    the bytes or some page does not render, and every such failure is the
    same 500, whatever the engine raised. *)
Theorem convert_pdf_to_images_fails_iff w b e :
  result (convert_pdf_to_images w b) = Raise e <->
  e = HTTPException 500 "Error converting PDF to images."
  /\ ((exists e0, fitz_open w b = Raise e0)
      \/ exists pages e0 rest,
           fitz_open w b = Return (map Return pages ++ Raise e0 :: rest)).
Proof.
  split.
  - intros H. split; [eapply convert_pdf_to_images_raises; eauto|].
    destruct (fitz_open w b) as [doc|e0] eqn:Hf; [|eauto].
    destruct (document_cases doc) as [(ps & ->)|(ps & e0 & rest & ->)].
    + apply convert_pdf_to_images_returns in Hf. congruence.
    + right. eauto.
  - intros (-> & [(e0 & H)|(ps & e0 & rest & H)]).
    + unfold convert_pdf_to_images.
      rewrite result_try_except, result_bind, result_call, H. reflexivity.
    + unfold convert_pdf_to_images.
      rewrite result_try_except, result_bind, result_call, H.
      cbn iota. rewrite render_pages_stops. reflexivity.
Qed.

(** ** upload_image_to_imgbb *)

(** X9.  One upload makes exactly one POST, to the imgbb URL, carrying the API
    key and the base64 text of the image; the response is decoded only
    when the POST returned one, and nothing else is called, whatever the
    reply. *)
Theorem upload_image_to_imgbb_one_post key session image_bytes :
  trace (upload_image_to_imgbb key session image_bytes)
  = EvPost "https://api.imgbb.com/1/upload" key (b64encode image_bytes)
    :: match post session IMGBB_URL key (b64encode image_bytes) with
       | Return _ => [EvJson]
       | Raise _ => []
       end.
Proof.
  unfold upload_image_to_imgbb, upload_image_to_imgbb_try, has_data_url.
  autorewrite with py.
  destruct (post session _ _ _) as [response|e0]; simpl; [|reflexivity].
  autorewrite with py.
  destruct (json_body response) as [reply|e0]; simpl; [|reflexivity].
  autorewrite with py. do 2 f_equal.
  destruct (py_in "data" reply) as [[|]|]; py_step; try reflexivity.
  destruct (getitem reply "data") as [data|]; py_step; try reflexivity.
  destruct (py_in "url" data) as [[|]|]; py_step; try reflexivity.
  destruct (getitem data "url"); reflexivity.
Qed.

(** ** Module initialisation *)

(** X10.  The module loads exactly when [IMGBB_API_KEY] is set to a non-empty
    string; the key is then kept and the route registered.  A key set to
    the empty string is refused like an absent one. *)
Theorem load_module_iff (env : environ) :
  (snd (load_module env) = Return tt <->
   exists key, env !! "IMGBB_API_KEY" = Some key /\ key <> "")
  /\ (snd (load_module env)
      = Raise (Exception "Imgbb API key not found in environment variables.")
      <-> env !! "IMGBB_API_KEY" = None \/ env !! "IMGBB_API_KEY" = Some "")
  /\ (snd (load_module env) = Return tt ->
      fst (load_module env)
      = {| app := {| routes := [("POST", "/api/convert-pdf")] |};
           IMGBB_API_KEY := env !! "IMGBB_API_KEY" |}).
Proof.
  unfold load_module.
  destruct (env !! "IMGBB_API_KEY") as [key|] eqn:Hkey; simpl.
  - destruct (String.eqb_spec key "") as [->|Hne]; simpl.
    + repeat split; try discriminate; auto.
      intros (k & [= <-] & Hk). contradiction.
    + repeat split; try discriminate; eauto.
      intros [?|[= ->]]; [discriminate|contradiction].
  - repeat split; try discriminate; auto.
    intros (k & ? & _). discriminate.
Qed.

(** ** convert_pdf_endpoint *)

Lemma posts_app t1 t2 : posts (t1 ++ t2) = posts t1 ++ posts t2.
Proof. apply List.filter_app. Qed.

Lemma posts_download_pdf w u : posts (trace (download_pdf w u)) = [].
Proof. destruct (download_pdf_trace w u) as [-> | ->]; reflexivity. Qed.

Lemma posts_render_pages pages n acc :
  posts (trace (render_pages pages n acc)) = [].
Proof.
  revert n acc. induction pages as [|page rest IH]; intros n acc; simpl;
    [reflexivity|].
  rewrite trace_bind, trace_call, result_call, posts_app.
  destruct page; [apply IH|reflexivity].
Qed.

Lemma posts_convert_pdf_to_images w b :
  posts (trace (convert_pdf_to_images w b)) = [].
Proof.
  unfold convert_pdf_to_images.
  rewrite trace_try_except, trace_bind, result_bind, trace_call, result_call.
  rewrite !posts_app.
  destruct (fitz_open w b) as [doc|e]; simpl; [|reflexivity].
  rewrite posts_render_pages. destruct (result _); reflexivity.
Qed.

Lemma posts_upload_image_to_imgbb key session image_bytes :
  posts (trace (upload_image_to_imgbb key session image_bytes))
  = [EvPost IMGBB_URL key (b64encode image_bytes)].
Proof.
  unfold upload_image_to_imgbb, upload_image_to_imgbb_try, has_data_url.
  autorewrite with py.
  destruct (post session _ _ _) as [response|e0]; simpl; [|reflexivity].
  autorewrite with py.
  destruct (json_body response) as [reply|e0]; simpl; [|reflexivity].
  autorewrite with py. simpl. f_equal.
  destruct (py_in "data" reply) as [[|]|]; py_step; try reflexivity.
  destruct (getitem reply "data") as [data|]; py_step; try reflexivity.
  destruct (py_in "url" data) as [[|]|]; py_step; try reflexivity.
  destruct (getitem data "url"); reflexivity.
Qed.

Lemma posts_uploads key (sessions : nat -> ClientSession) pages :
  posts (concat (map trace
           (imap (fun i image_bytes =>
                    upload_image_to_imgbb key (sessions i) image_bytes) pages)))
  = map (fun image_bytes => EvPost IMGBB_URL key (b64encode image_bytes)) pages.
Proof.
  revert sessions. induction pages as [|p pages IH]; intros sessions; simpl;
    [reflexivity|].
  rewrite posts_app, posts_upload_image_to_imgbb. simpl. f_equal.
  apply (IH (fun i => sessions (S i))).
Qed.

(** X11.  The endpoint posts to imgbb only after the download and the rendering
    of every page succeeded, and then it posts every page image exactly
    once, in page order, base64-encoded and with the key it was given,
    also when one of the uploads fails: no upload is skipped or cancelled. *)
Theorem endpoint_posts key w pdf :
  posts (trace (convert_pdf_endpoint key w pdf))
  = match result (download_pdf w (url pdf)) with
    | Return pdf_bytes =>
        match result (convert_pdf_to_images w pdf_bytes) with
        | Return pages =>
            map (fun image_bytes =>
                   EvPost "https://api.imgbb.com/1/upload" key
                     (b64encode image_bytes)) pages
        | Raise _ => []
        end
    | Raise _ => []
    end.
Proof.
  unfold convert_pdf_endpoint, convert_pdf_endpoint_try.
  rewrite trace_try_except, posts_app, trace_bind, posts_app,
    posts_download_pdf, result_bind.
  destruct (result (download_pdf w (url pdf))) as [b|e]; simpl.
  - rewrite trace_bind, posts_app, posts_convert_pdf_to_images, result_bind.
    destruct (result (convert_pdf_to_images w b)) as [pages|e]; simpl.
    + rewrite trace_bind, posts_app, result_bind.
      unfold gather at 1, trace at 1. simpl fst.
      unfold upload_tasks at 1. rewrite posts_uploads.
      destruct (result (gather _ _)) as [urls|e]; simpl.
      * destruct (is_empty urls); simpl;
          rewrite ?convert_pdf_endpoint_except_trace, !app_nil_r; reflexivity.
      * rewrite convert_pdf_endpoint_except_trace, !app_nil_r. reflexivity.
    + rewrite convert_pdf_endpoint_except_trace. reflexivity.
  - rewrite convert_pdf_endpoint_except_trace. reflexivity.
Qed.

(** X12.  Whatever goes wrong, the caller receives one of five fixed errors: a
    status with a constant detail.  The details built from the response
    (status code, content type) and the messages of foreign exceptions
    never reach the caller, and the endpoint's own [except Exception]
    clause never has anything to wrap. *)
Theorem endpoint_errors key w pdf e :
  result (convert_pdf_endpoint key w pdf) = Raise e ->
  e = HTTPException 400 "Client error occurred while downloading PDF."
  \/ e = HTTPException 500 "Unexpected error occurred."
  \/ e = HTTPException 500 "Error converting PDF to images."
  \/ e = HTTPException 500 "Error uploading images."
  \/ e = HTTPException 500 "No images were generated.".
Proof.
  unfold convert_pdf_endpoint, convert_pdf_endpoint_try.
  rewrite result_try_except, result_bind.
  destruct (result (download_pdf w (url pdf))) as [b|e0] eqn:Hd.
  - rewrite result_bind.
    destruct (result (convert_pdf_to_images w b)) as [pages|e0] eqn:Hc.
    + rewrite result_bind.
      destruct (result (gather _ _)) as [urls|e0] eqn:Hg.
      * destruct urls; simpl; [|discriminate]. intros [= <-]. auto 10.
      * apply gather_raises in Hg as (i & t & Hi & Ht).
        apply upload_tasks_lookup in Hi as (im & _ & ->).
        apply upload_image_to_imgbb_raises in Ht as ->.
        simpl. intros [= <-]. auto 10.
    + apply convert_pdf_to_images_raises in Hc as ->.
      simpl. intros [= <-]. auto 10.
  - apply download_pdf_raises in Hd as [-> | ->]; simpl; intros [= <-]; auto.
Qed.

Lemma endpoint_errors_witness :
  result (convert_pdf_endpoint "key" broken_page request)
  = Raise (HTTPException 500 "Error converting PDF to images.")
  /\ (HTTPException 500 "Error converting PDF to images."
      = HTTPException 400 "Client error occurred while downloading PDF."
      \/ HTTPException 500 "Error converting PDF to images."
         = HTTPException 500 "Unexpected error occurred."
      \/ HTTPException 500 "Error converting PDF to images."
         = HTTPException 500 "Error converting PDF to images."
      \/ HTTPException 500 "Error converting PDF to images."
         = HTTPException 500 "Error uploading images."
      \/ HTTPException 500 "Error converting PDF to images."
         = HTTPException 500 "No images were generated.").
Proof.
  split; [reflexivity|].
  apply (endpoint_errors "key" broken_page request). reflexivity.
Defined.

(** X13.  The endpoint succeeds exactly when the download returns, the document
    opens with at least one page, every page renders and every upload
    returns; the answer lists the results of the uploads in page order. *)
Theorem endpoint_success_iff key w pdf urls :
  result (convert_pdf_endpoint key w pdf) = Return {| images := urls |} <->
  exists pdf_bytes pages,
    result (download_pdf w (url pdf)) = Return pdf_bytes
    /\ fitz_open w pdf_bytes = Return (map Return pages)
    /\ pages <> []
    /\ map result (upload_tasks key w pages) = map Return urls.
Proof.
  unfold convert_pdf_endpoint, convert_pdf_endpoint_try,
    convert_pdf_endpoint_except.
  rewrite result_try_except, result_bind. split.
  - destruct (result (download_pdf w (url pdf))) as [b|e0] eqn:Hd.
    + rewrite result_bind.
      destruct (result (convert_pdf_to_images w b)) as [pages|e0] eqn:Hc.
      * rewrite result_bind.
        destruct (result (gather _ _)) as [urls'|e0] eqn:Hg.
        -- destruct urls' as [|u urls']; simpl; [discriminate|].
           intros [= <-]. apply gather_returns in Hg.
           apply convert_pdf_to_images_returns in Hc.
           exists b, pages. repeat split; auto.
           intros ->. discriminate.
        -- destruct (is_HTTPException e0); discriminate.
      * destruct (is_HTTPException e0); discriminate.
    + destruct (is_HTTPException e0); discriminate.
  - intros (b & pages & Hd & Hf & Hne & Hup).
    apply convert_pdf_to_images_returns in Hf.
    rewrite Hd, result_bind, Hf, result_bind.
    rewrite (proj2 (gather_returns _ _ urls) Hup).
    destruct urls; [|reflexivity].
    destruct pages; [contradiction|discriminate].
Qed.

Lemma forallb_is_Return {A} (rs : list (outcome A)) :
  forallb is_Return rs = true <-> rs = map Return (returned rs).
Proof.
  induction rs as [|[a|e] rs IH]; simpl.
  - split; reflexivity.
  - rewrite IH. split; [congruence|]. intros [= H]. exact H.
  - split; [discriminate|]. intros H.
    apply (f_equal length) in H. rewrite length_map in H. simpl in H.
    assert (length (returned rs) <= length rs)%nat as Hle.
    { clear. induction rs as [|[a|e] rs IH]; simpl; lia. }
    lia.
Qed.

(** What [gather] makes of the upload tasks does not depend on the order
    in which they finish: all failures of an upload are the same
    exception. *)
Lemma gather_uploads order key w pages :
  gather order (upload_tasks key w pages)
  = (concat (map trace (upload_tasks key w pages)),
     if forallb is_Return (map result (upload_tasks key w pages))
     then Return (returned (map result (upload_tasks key w pages)))
     else Raise (HTTPException 500 "Error uploading images.")).
Proof.
  rewrite (M_eta (gather order _)). f_equal.
  destruct (result (gather order _)) as [urls|e] eqn:Hg.
  - apply gather_returns in Hg.
    rewrite (proj2 (forallb_is_Return _)); rewrite Hg, returned_map_Return;
      reflexivity.
  - destruct (forallb is_Return _) eqn:Hall.
    + apply forallb_is_Return in Hall.
      apply (proj2 (gather_returns order _ _)) in Hall. congruence.
    + apply gather_raises in Hg as (i & t & Hi & Ht).
      apply upload_tasks_lookup in Hi as (im & _ & ->).
      apply upload_image_to_imgbb_raises in Ht as ->. reflexivity.
Qed.

(** X14.  The answer of the endpoint, stage by stage: a failed download is
    surfaced as [download_pdf] raised it; otherwise a failed rendering is
    the 500 of the renderer; otherwise one failed upload is the 500 of the
    uploader; otherwise a document without pages is the 500 "No images
    were generated."; otherwise the upload results are returned in page
    order. *)
Theorem endpoint_result_by_stage key w pdf :
  result (convert_pdf_endpoint key w pdf)
  = match result (download_pdf w (url pdf)) with
    | Raise e => Raise e
    | Return pdf_bytes =>
        match result (convert_pdf_to_images w pdf_bytes) with
        | Raise _ => Raise (HTTPException 500 "Error converting PDF to images.")
        | Return pages =>
            let uploads := map result (upload_tasks key w pages) in
            if negb (forallb is_Return uploads) then
              Raise (HTTPException 500 "Error uploading images.")
            else if is_empty pages then
              Raise (HTTPException 500 "No images were generated.")
            else Return {| images := returned uploads |}
        end
    end.
Proof.
  unfold convert_pdf_endpoint, convert_pdf_endpoint_try.
  rewrite result_try_except, result_bind.
  destruct (result (download_pdf w (url pdf))) as [b|e] eqn:Hd.
  - rewrite result_bind.
    destruct (result (convert_pdf_to_images w b)) as [pages|e] eqn:Hc.
    + rewrite result_bind, gather_uploads. unfold result at 1. cbn [snd].
      destruct (forallb is_Return _) eqn:Hall; cbn [negb]; [|reflexivity].
      destruct pages as [|p pages]; [reflexivity|].
      apply forallb_is_Return in Hall.
      destruct (returned _) as [|u urls]; [discriminate|reflexivity].
    + apply convert_pdf_to_images_raises in Hc as ->. reflexivity.
  - apply download_pdf_raises in Hd as [-> | ->]; reflexivity.
Qed.


(** ** The base64 text of an image *)

(** Induction over a list three elements at a time, as [b64encode]
    consumes it. *)
Lemma list_ind3 {A} (P : list A -> Prop) :
  P [] -> (forall x, P [x]) -> (forall x y, P [x; y]) ->
  (forall x y z rest, P rest -> P (x :: y :: z :: rest)) ->
  forall l, P l.
Proof.
  intros H0 H1 H2 H3.
  assert (forall l, P l /\ (forall x, P (x :: l)) /\ forall x y, P (x :: y :: l))
    as H.
  { induction l as [|a l (IH0 & IH1 & IH2)]; [auto|].
    split; [apply IH1|]. split; [intros x; apply IH2|].
    intros x y. apply H3. exact IH0. }
  intros l. apply H.
Qed.

(** X16.  The text posted for an image of n bytes has 4 * ceil(n / 3)
    characters: four for every three bytes, the last group padded. *)
Theorem b64encode_length (b : bytes) :
  String.length (b64encode b) = (4 * ((length b + 2) / 3))%nat.
Proof.
  induction b as [| | |x y z rest IH] using list_ind3; try reflexivity.
  cbn [b64encode String.length length]. rewrite IH.
  replace (S (S (S (length rest))) + 2)%nat with (1 * 3 + (length rest + 2))%nat
    by lia.
  rewrite Nat.div_add_l by lia. lia.
Qed.

Example b64decode_example :
  b64decode "TWFu" = ["M"; "a"; "n"]%byte /\ b64decode "TWE=" = ["M"; "a"]%byte
  /\ b64decode "TQ==" = ["M"]%byte /\ b64decode "/+8A" = ["255"; "239"; "000"]%byte.
Proof. repeat split. Qed.

(** Below a bound, a property checked on every number holds of each. *)
Lemma N_below (k : nat) (p : N -> bool) :
  forallb p (map N.of_nat (seq 0 k)) = true ->
  forall m, (m < N.of_nat k)%N -> p m = true.
Proof.
  intros H m Hm. rewrite forallb_forall in H. apply H.
  apply in_map_iff. exists (N.to_nat m). split; [apply N2Nat.id|].
  apply in_seq. lia.
Qed.

Lemma land_63_lt n : (N.land n 63 < 64)%N.
Proof.
  change 63%N with (N.ones 6). rewrite N.land_ones.
  apply N.mod_lt. discriminate.
Qed.

Lemma b64_value_digit n : b64_value (b64_digit n) = N.land n 63.
Proof.
  assert (forall m, (m < 64)%N -> b64_value (b64_digit m) = m) as H.
  { intros m Hm. apply N.eqb_eq.
    apply (N_below 64 (fun m => N.eqb (b64_value (b64_digit m)) m));
      [vm_compute; reflexivity|exact Hm]. }
  assert (b64_digit n = b64_digit (N.land n 63)) as ->.
  { unfold b64_digit. rewrite <- N.land_assoc. reflexivity. }
  apply H, land_63_lt.
Qed.

Lemma b64_digit_not_padding n : Ascii.eqb (b64_digit n) "=" = false.
Proof.
  assert (forall m, (m < 64)%N -> Ascii.eqb (b64_digit m) "=" = false) as H.
  { intros m Hm. apply negb_true_iff.
    apply (N_below 64 (fun m => negb (Ascii.eqb (b64_digit m) "=")));
      [vm_compute; reflexivity|exact Hm]. }
  assert (b64_digit n = b64_digit (N.land n 63)) as ->.
  { unfold b64_digit. rewrite <- N.land_assoc. reflexivity. }
  apply H, land_63_lt.
Qed.

(** Joining a number shifted by [k] bits with one of fewer than [k] bits
    adds them. *)
Lemma lor_shiftl_add a b k :
  (b < 2 ^ k)%N -> N.lor (N.shiftl a k) b = (a * 2 ^ k + b)%N.
Proof.
  intros Hb.
  assert (N.land (N.shiftl a k) b = 0%N) as H0.
  { apply N.bits_inj. intros i. rewrite N.land_spec, N.bits_0.
    destruct (N.lt_ge_cases i k) as [Hi|Hi].
    - rewrite N.shiftl_spec_low by exact Hi. reflexivity.
    - rewrite <- (N.mod_small b (2 ^ k)) by exact Hb.
      rewrite N.mod_pow2_bits_high by exact Hi. apply andb_false_r. }
  rewrite <- N.lxor_lor, <- N.add_nocarry_lxor, N.shiftl_mul_pow2 by exact H0.
  reflexivity.
Qed.

Ltac euclid := zify; Z.to_euclidean_division_equations; lia.

Lemma pack3 X Y Z :
  (X <= 255 -> Y <= 255 -> Z <= 255 ->
   N.lor (N.lor (N.shiftl X 16) (N.shiftl Y 8)) Z = X * 65536 + Y * 256 + Z)%N.
Proof.
  intros HX HY HZ.
  rewrite (lor_shiftl_add X (N.shiftl Y 8) 16)
    by (rewrite N.shiftl_mul_pow2; change (2 ^ 8)%N with 256%N;
        change (2 ^ 16)%N with 65536%N; lia).
  rewrite N.shiftl_mul_pow2. change (2 ^ 8)%N with 256%N.
  change (2 ^ 16)%N with 65536%N.
  replace (X * 65536 + Y * 256)%N with (N.shiftl (X * 256 + Y) 8)
    by (rewrite N.shiftl_mul_pow2; change (2 ^ 8)%N with 256%N; lia).
  rewrite lor_shiftl_add by (change (2 ^ 8)%N with 256%N; lia).
  rewrite ?N.shiftl_mul_pow2. change (2 ^ 8)%N with 256%N. lia.
Qed.

Lemma b64_value_lt c : (b64_value (b64_digit c) < 64)%N.
Proof. rewrite b64_value_digit. apply land_63_lt. Qed.

Lemma b64_group_add c0 c1 c2 c3 :
  (b64_value c1 < 64 -> b64_value c2 < 64 -> b64_value c3 < 64 ->
   b64_group c0 c1 c2 c3
   = ((b64_value c0 * 64 + b64_value c1) * 64 + b64_value c2) * 64
     + b64_value c3)%N.
Proof.
  intros H1 H2 H3. unfold b64_group.
  rewrite !lor_shiftl_add by (change (2 ^ 6)%N with 64%N; assumption).
  change (2 ^ 6)%N with 64%N. reflexivity.
Qed.

Lemma digit_at n s :
  b64_value (b64_digit (N.shiftr n s)) = ((n / 2 ^ s) mod 64)%N.
Proof.
  rewrite b64_value_digit. change 63%N with (N.ones 6).
  rewrite N.land_ones, N.shiftr_div_pow2. reflexivity.
Qed.

Lemma digit_low n : b64_value (b64_digit n) = (n mod 64)%N.
Proof.
  rewrite b64_value_digit. change 63%N with (N.ones 6).
  apply N.land_ones.
Qed.

(** Four characters written for a number of 24 bits stand for it; so do
    the characters written before the padding when the bits left out are
    zero. *)
Lemma group_digits n :
  (n < 16777216)%N ->
  b64_group (b64_digit (N.shiftr n 18)) (b64_digit (N.shiftr n 12))
            (b64_digit (N.shiftr n 6)) (b64_digit n) = n.
Proof.
  intros Hn. rewrite b64_group_add by apply b64_value_lt.
  rewrite !digit_at, digit_low.
  change (2 ^ 18)%N with 262144%N. change (2 ^ 12)%N with 4096%N.
  change (2 ^ 6)%N with 64%N. euclid.
Qed.

Lemma group_digits_pad1 n :
  (n < 16777216)%N -> (n mod 64 = 0)%N ->
  b64_group (b64_digit (N.shiftr n 18)) (b64_digit (N.shiftr n 12))
            (b64_digit (N.shiftr n 6)) "=" = n.
Proof.
  intros Hn H0.
  rewrite b64_group_add by (try apply b64_value_lt; reflexivity).
  rewrite !digit_at. change (b64_value "=") with 0%N.
  change (2 ^ 18)%N with 262144%N. change (2 ^ 12)%N with 4096%N.
  change (2 ^ 6)%N with 64%N. euclid.
Qed.

Lemma group_digits_pad2 n :
  (n < 16777216)%N -> (n mod 4096 = 0)%N ->
  b64_group (b64_digit (N.shiftr n 18)) (b64_digit (N.shiftr n 12)) "=" "="
  = n.
Proof.
  intros Hn H0.
  rewrite b64_group_add by (try apply b64_value_lt; reflexivity).
  rewrite !digit_at. change (b64_value "=") with 0%N.
  change (2 ^ 18)%N with 262144%N. change (2 ^ 12)%N with 4096%N. euclid.
Qed.

Lemma byte_at_of n s x :
  ((n / 2 ^ s) mod 256)%N = Byte.to_N x -> byte_at n s = x.
Proof.
  intros H. unfold byte_at. change 255%N with (N.ones 8).
  rewrite N.land_ones, N.shiftr_div_pow2. change (2 ^ 8)%N with 256%N.
  rewrite H, Byte.of_to_N. reflexivity.
Qed.

(** Reading back the text written for some bytes gives the bytes. *)
Lemma b64decode_b64encode (b : bytes) : b64decode (b64encode b) = b.
Proof.
  induction b as [|x|x y|x y z rest IH] using list_ind3.
  - reflexivity.
  - cbn [b64encode b64decode]. change (Ascii.eqb "=" "=") with true. cbn iota.
    pose proof (Byte.to_N_bounded x) as HX.
    assert (N.shiftl (Byte.to_N x) 16 = Byte.to_N x * 65536)%N as Hn
      by (rewrite N.shiftl_mul_pow2; reflexivity).
    rewrite group_digits_pad2 by (rewrite Hn; euclid).
    f_equal. apply byte_at_of. rewrite Hn.
    change (2 ^ 16)%N with 65536%N. euclid.
  - cbn [b64encode b64decode]. rewrite b64_digit_not_padding.
    change (Ascii.eqb "=" "=") with true. cbn iota.
    pose proof (Byte.to_N_bounded x) as HX.
    pose proof (Byte.to_N_bounded y) as HY.
    assert (N.lor (N.shiftl (Byte.to_N x) 16) (N.shiftl (Byte.to_N y) 8)
            = Byte.to_N x * 65536 + Byte.to_N y * 256)%N as Hn.
    { rewrite <- (N.lor_0_r (N.lor _ _)), pack3 by lia. lia. }
    rewrite group_digits_pad1 by (rewrite Hn; euclid).
    rewrite Hn. f_equal; [|f_equal]; apply byte_at_of.
    + change (2 ^ 16)%N with 65536%N. euclid.
    + change (2 ^ 8)%N with 256%N. euclid.
  - cbn [b64encode b64decode]. rewrite !b64_digit_not_padding.
    pose proof (Byte.to_N_bounded x) as HX.
    pose proof (Byte.to_N_bounded y) as HY.
    pose proof (Byte.to_N_bounded z) as HZ.
    rewrite pack3 by assumption.
    rewrite group_digits by lia. rewrite IH.
    f_equal; [|f_equal; [|f_equal]]; apply byte_at_of.
    + change (2 ^ 16)%N with 65536%N. euclid.
    + change (2 ^ 8)%N with 256%N. euclid.
    + change (2 ^ 0)%N with 1%N. euclid.
Qed.

(** X17.  Two different images are never posted as the same text: the image
    can be read back from what [b64encode] wrote. *)
Theorem b64encode_injective (b1 b2 : bytes) :
  b64encode b1 = b64encode b2 -> b1 = b2.
Proof.
  intros H. rewrite <- (b64decode_b64encode b1), <- (b64decode_b64encode b2).
  rewrite H. reflexivity.
Qed.

Lemma b64encode_injective_witness :
  b64encode [ "%"; "P" ]%byte = "JVA=" /\ [ "%"; "P" ]%byte = b64decode "JVA=".
Proof.
  split; [reflexivity|].
  apply (b64encode_injective [ "%"; "P" ]%byte (b64decode "JVA=")).
  reflexivity.
Defined.

Lemma b64_digit_in_alphabet n :
  In (b64_digit n) (list_ascii_of_string b64_alphabet).
Proof.
  assert (b64_digit n = b64_digit (N.land n 63)) as ->.
  { unfold b64_digit. rewrite <- N.land_assoc. reflexivity. }
  generalize (N.land n 63) (land_63_lt n). intros m Hm.
  assert (existsb (Ascii.eqb (b64_digit m)) (list_ascii_of_string b64_alphabet)
          = true) as H.
  { apply (N_below 64 (fun m => existsb (Ascii.eqb (b64_digit m))
                                  (list_ascii_of_string b64_alphabet)));
      [vm_compute; reflexivity|exact Hm]. }
  apply existsb_exists in H as (c & Hc & Heq).
  apply Ascii.eqb_eq in Heq as ->. exact Hc.
Qed.

(** X18.  The text posted for an image is made of the 64 characters of the
    base64 alphabet and the padding character only. *)
Theorem b64encode_alphabet (b : bytes) :
  Forall (fun c => In c b64_chars) (list_ascii_of_string (b64encode b)).
Proof.
  assert (forall n, In (b64_digit n) b64_chars) as Hd.
  { intros n. apply in_or_app. left. apply b64_digit_in_alphabet. }
  assert (In "="%char b64_chars) as Hp.
  { apply in_or_app. right. left. reflexivity. }
  induction b as [|x|x y|x y z rest IH] using list_ind3;
    cbn [b64encode list_ascii_of_string];
    repeat match goal with
           | |- Forall _ (_ :: _) => constructor; [solve [auto]|]
           end;
    auto.
Qed.

(** ** What becomes of the rejections of download_pdf *)

(** X19.  [download_pdf] leaves with a 500 exactly when the response is
    rejected by one of the three checks (status, content type, size) or
    an exception other than an [aiohttp.ClientError] is raised by the GET
    or the read; the detail is always "Unexpected error occurred.": the
    400 that each check raises inside the [try] is replaced by the
    [except Exception] clause of the function. *)
Theorem download_pdf_500_iff w u d :
  result (download_pdf w u) = Raise (HTTPException 500 d) <->
  d = "Unexpected error occurred."
  /\ ((exists e, get (download_session w DOWNLOAD_HEADERS) u = Raise e
                 /\ is_ClientError e = false)
      \/ exists response,
           get (download_session w DOWNLOAD_HEADERS) u = Return response
           /\ (status response <> 200
               \/ contains "pdf"
                    (lower (headers_get (headers response) "Content-Type" ""))
                  = false
               \/ (exists e, read response = Raise e
                             /\ is_ClientError e = false)
               \/ (exists body, read response = Return body
                                /\ 10 * 1024 * 1024 < len body))).
Proof.
  unfold download_pdf, download_pdf_try, download_pdf_except.
  rewrite result_try_except, result_bind, result_call.
  destruct (get _ u) as [r|e] eqn:Hget; simpl.
  - destruct (Z.eqb_spec (status r) 200) as [Hs|Hs]; simpl.
    + destruct (contains "pdf" _) eqn:Hc; simpl.
      * rewrite result_bind, result_call.
        destruct (read r) as [body|e] eqn:Hread; simpl.
        -- destruct (Z.ltb_spec MAX_PDF_BYTES (len body)) as [Hl|Hl]; simpl.
           ++ split.
              ** intros [= <-]. split; [reflexivity|]. right. exists r.
                 split; [reflexivity|]. do 3 right. exists body. auto.
              ** intros (-> & _). reflexivity.
           ++ split; [discriminate|].
              intros (_ & [(e & ? & _)|(r' & [= <-] & H)]); [discriminate|].
              destruct H as [?|[?|[(e & ? & _)|(b' & Hb & Hl')]]];
                try congruence.
              rewrite Hread in Hb. injection Hb as <-.
              unfold MAX_PDF_BYTES in Hl. lia.
        -- destruct (is_ClientError e) eqn:He; simpl.
           ++ split; [discriminate|].
              intros (_ & [(e' & ? & _)|(r' & [= <-] & H)]); [discriminate|].
              destruct H as [?|[?|[(e' & He' & Hne)|(b' & Hb & _)]]];
                congruence.
           ++ split.
              ** intros [= <-]. split; [reflexivity|]. right. exists r.
                 split; [reflexivity|]. right. right. left. eauto.
              ** intros (-> & _). reflexivity.
      * split.
        -- intros [= <-]. split; [reflexivity|]. right. exists r. auto.
        -- intros (-> & _). reflexivity.
    + split.
      * intros [= <-]. split; [reflexivity|]. right. exists r. auto.
      * intros (-> & _). reflexivity.
  - destruct (is_ClientError e) eqn:He; simpl.
    + split; [discriminate|].
      intros (_ & [(e' & [= <-] & Hne)|(r' & ? & _)]); congruence.
    + split.
      * intros [= <-]. split; [reflexivity|]. left. eauto.
      * intros (-> & _). reflexivity.
Qed.

(** ** Counting on the endpoint *)

(** X20.  A successful answer carries as many URLs as the document has pages,
    and at least one. *)
Theorem endpoint_success_count key w pdf r pdf_bytes doc :
  result (convert_pdf_endpoint key w pdf) = Return r ->
  result (download_pdf w (url pdf)) = Return pdf_bytes ->
  fitz_open w pdf_bytes = Return doc ->
  length (images r) = length doc /\ images r <> [].
Proof.
  intros Hr Hd Hf. unfold convert_pdf_endpoint, convert_pdf_endpoint_try,
    convert_pdf_endpoint_except in Hr.
  rewrite result_try_except, result_bind, Hd, result_bind in Hr.
  destruct (result (convert_pdf_to_images w pdf_bytes)) as [pages|e] eqn:Hc;
    [|destruct (is_HTTPException e); discriminate].
  apply convert_pdf_to_images_returns in Hc. rewrite Hf in Hc.
  injection Hc as ->.
  rewrite result_bind in Hr.
  destruct (result (gather _ _)) as [urls|e] eqn:Hg;
    [|destruct (is_HTTPException e); discriminate].
  apply gather_returns in Hg. apply (f_equal length) in Hg.
  rewrite !length_map in Hg. unfold upload_tasks in Hg.
  rewrite length_imap in Hg.
  destruct urls as [|u urls]; [discriminate|].
  injection Hr as <-. simpl. rewrite length_map. split; [simpl in Hg; lia|].
  discriminate.
Qed.

Lemma endpoint_success_count_witness :
  length [JString url_a; JString url_b] = length two_page_doc
  /\ [JString url_a; JString url_b] <> [].
Proof.
  apply (endpoint_success_count "key" two_pages request
           {| images := [JString url_a; JString url_b] |} small_pdf two_page_doc);
    reflexivity.
Defined.

Lemma gets_app t1 t2 : gets (t1 ++ t2) = gets t1 ++ gets t2.
Proof. apply List.filter_app. Qed.

Lemma gets_none t :
  (forall ev, ev ∈ t -> is_EvGet ev = false) -> gets t = [].
Proof.
  induction t as [|ev t IH]; intros H; [reflexivity|]. simpl.
  rewrite (H ev) by left. apply IH. intros ev' Hev. apply H. right. exact Hev.
Qed.

(** X21.  Serving a request makes exactly one GET, for the URL of the request,
    and makes it before any other call. *)
Theorem endpoint_one_get key w pdf :
  gets (trace (convert_pdf_endpoint key w pdf)) = [EvGet (url pdf)]
  /\ exists rest,
       trace (convert_pdf_endpoint key w pdf) = EvGet (url pdf) :: rest.
Proof.
  assert (exists rest,
            trace (convert_pdf_endpoint key w pdf) = EvGet (url pdf) :: rest
            /\ forall ev, ev ∈ rest -> is_EvGet ev = false) as (rest & Ht & Hrest).
  { unfold convert_pdf_endpoint, convert_pdf_endpoint_try.
    rewrite trace_try_except, trace_bind.
    assert (exists t0, trace (download_pdf w (url pdf)) = EvGet (url pdf) :: t0
                       /\ forall ev, ev ∈ t0 -> is_EvGet ev = false)
      as (t0 & -> & Ht0).
    { destruct (download_pdf_trace w (url pdf)) as [-> | ->]; eexists;
        (split; [reflexivity|]); intros ev Hev;
        repeat (apply elem_of_cons in Hev as [->|Hev]; [reflexivity|]);
        inversion Hev. }
    eexists. split; [rewrite <- !app_comm_cons; reflexivity|].
    intros ev [[Hev|Hev]%elem_of_app|Hev]%elem_of_app; [auto| |].
    - destruct (result (download_pdf w (url pdf))) as [b|e]; [|inversion Hev].
      rewrite trace_bind in Hev. apply elem_of_app in Hev as [Hev|Hev].
      + apply convert_pdf_to_images_trace in Hev as [->|(k & ->)]; reflexivity.
      + destruct (result (convert_pdf_to_images w b)) as [pages|e];
          [|inversion Hev].
        rewrite trace_bind in Hev. apply elem_of_app in Hev as [Hev|Hev].
        * apply gather_trace in Hev as (i & t & Hi & Hev).
          apply upload_tasks_lookup in Hi as (im & _ & ->).
          apply upload_image_to_imgbb_trace in Hev as [-> | ->]; reflexivity.
        * destruct (result (gather _ _)) as [urls|e]; [|inversion Hev].
          destruct (is_empty urls); inversion Hev.
    - destruct (result _); [inversion Hev|].
      rewrite convert_pdf_endpoint_except_trace in Hev. inversion Hev. }
  split; [|eauto]. rewrite Ht. simpl. rewrite (gets_none rest Hrest).
  reflexivity.
Qed.
